(** * CartesiaTTSService: a shallow embedding of [pipecat/services/cartesia.py]

    The service keeps one websocket to the Cartesia text-to-speech endpoint,
    tags every request with a context id, receives audio chunks and word
    timestamps for that context, and replays the words as text frames against
    the wall clock.

    Conventions of the embedding.
    - [time.time()] and the JSON numbers of the wire protocol are rationals
      ([Q]); the float rounding of the subtraction [now - start] is not modelled.
    - Every method is a computation in the monad [M]: it reads and writes the
      fields of [self], appends to a log of effects (frames pushed downstream,
      metrics hooks, socket operations, logged exceptions) and either returns
      or raises.
    - What the outside world decides is an argument: the clock reading of a
      step, whether [websockets.connect], [send] and [close] succeed, and the
      string [uuid.uuid4()] returns.
    - One execution of a handler body between two suspension points of the
      other handlers is one step; interleavings inside a body are not modelled.
    - The pipeline hooks inherited from [TTSService] ([push_frame],
      [start_ttfb_metrics], [stop_ttfb_metrics], [stop_all_metrics],
      [super().handle_interruption]) are logged as effects and do not raise. *)

From Stdlib Require Import Bool List String Ascii ZArith QArith Lia.
Import ListNotations.

Local Open Scope string_scope.
Local Open Scope list_scope.
Local Open Scope Q_scope.

(** ** Values returned by [json.loads] *)

(** A dict is the list of its items in insertion order. *)
#[local] Unset Elimination Schemes.
Inductive json : Type :=
| JNull
| JBool (b : bool)
| JNum (q : Q)
| JStr (s : string)
| JArr (items : list json)
| JObj (items : list (string * json)).
#[local] Set Elimination Schemes.

(** Exceptions the handlers can meet. *)
Inductive exn : Type :=
| JSONDecodeError
| KeyError (key : string)
| TypeError
| AttributeError
| Base64Error
| TransportError.

Inductive result (A : Type) : Type :=
| Ok (a : A)
| Raise (e : exn).
Arguments Ok {A} a.
Arguments Raise {A} e.

(** Python truth value of a JSON value: [None], [False], zero and the empty
    string, list and dict are falsy. *)
Definition truthy (j : json) : bool :=
  match j with
  | JNull => false
  | JBool b => b
  | JNum q => negb (Qeq_bool q 0)
  | JStr s => negb (s =? "")%string
  | JArr items => match items with [] => false | _ => true end
  | JObj items => match items with [] => false | _ => true end
  end.

Fixpoint assoc (key : string) (items : list (string * json)) : option json :=
  match items with
  | [] => None
  | (k, v) :: rest => if (k =? key)%string then Some v else assoc key rest
  end.

(** [j[key]] for a string key. *)
Definition getitem (j : json) (key : string) : result json :=
  match j with
  | JObj items =>
      match assoc key items with
      | Some v => Ok v
      | None => Raise (KeyError key)
      end
  | _ => Raise TypeError
  end.

(** [j == s] for a Python string [s]. *)
Definition eq_str (j : json) (s : string) : bool :=
  match j with
  | JStr t => (t =? s)%string
  | _ => false
  end.

(** The number a JSON value is in arithmetic and comparisons ([bool] is a
    subclass of [int]). *)
Definition as_number (j : json) : option Q :=
  match j with
  | JNum q => Some q
  | JBool true => Some 1
  | JBool false => Some 0
  | _ => None
  end.

(** [j == q] for a number [q]. *)
Definition eq_num (j : json) (q : Q) : bool :=
  match as_number j with
  | Some p => Qeq_bool p q
  | None => false
  end.

(** [j <= q] for a float [q]. *)
Definition le_num (j : json) (q : Q) : result bool :=
  match as_number j with
  | Some p => Ok (Qle_bool p q)
  | None => Raise TypeError
  end.

(** [j != c] where [c] is [self._context_id]: [None] or a string. *)
Definition ne_context (j : json) (c : option string) : bool :=
  match j, c with
  | JNull, None => false
  | JStr s, Some t => negb (s =? t)%string
  | _, _ => true
  end.

Fixpoint chars (s : string) : list json :=
  match s with
  | EmptyString => []
  | String c rest => JStr (String c EmptyString) :: chars rest
  end.

(** The items iterating over a JSON value yields. *)
Definition iter (j : json) : result (list json) :=
  match j with
  | JArr items => Ok items
  | JStr s => Ok (chars s)
  | JObj items => Ok (map (fun kv => JStr (fst kv)) items)
  | _ => Raise TypeError
  end.

(** [not c] for [self._context_id]. *)
Definition no_context (c : option string) : bool :=
  match c with
  | None => true
  | Some s => (s =? "")%string
  end.

(** [not t] for [self._context_id_start_timestamp]. *)
Definition no_timestamp (t : option Q) : bool :=
  match t with
  | None => true
  | Some q => Qeq_bool q 0
  end.

(** ** Frames, effects and the fields of the service *)

Inductive Frame : Type :=
| AudioRawFrame (audio : string) (sample_rate : Z) (num_channels : Z)
| TextFrame (text : json)
| LLMFullResponseEndFrame.

Inductive Handler : Type :=
| ReceiveTaskHandler
| ContextAppendingTaskHandler.

Inductive WebSocket : Type :=
| Socket (uri : string).

Record OutputFormat : Type := {
  container : string;
  encoding : string;
  sample_rate : Z
}.

Record Voice : Type := {
  mode : string;
  id : string
}.

(** The message [run_tts] sends. *)
Record Request : Type := {
  transcript : string;
  continue : bool;
  request_context_id : option string;
  request_model_id : string;
  voice : Voice;
  request_output_format : OutputFormat;
  request_language : string;
  add_timestamps : bool
}.

Inductive Event : Type :=
| EvLogDebug (text : string)
| EvLogException (e : exn)
| EvConnect (uri : string) (ok : bool)
| EvCreateTask (h : Handler)
| EvCancelTask (h : Handler)
| EvClose (ws : WebSocket) (ok : bool)
| EvSend (ws : WebSocket) (r : Request) (ok : bool)
| EvPushFrame (f : Frame)
| EvStartTtfbMetrics
| EvStopTtfbMetrics
| EvStopAllMetrics
| EvSuperHandleInterruption.

(** The constructor arguments, fixed for the life of the object. *)
Record Config : Type := {
  api_key : string;
  cartesia_version : string;
  url : string;
  voice_id : string;
  model_id : string;
  output_format : OutputFormat;
  language : string
}.

(** An entry of [_timestamped_words_buffer]: [(word, end)]. *)
Definition Entry : Type := (json * json)%type.

(** The fields the methods assign. *)
Record State : Type := {
  websocket : option WebSocket;
  context_id : option string;
  context_id_start_timestamp : option Q;
  timestamped_words_buffer : list Entry;
  receive_task : option Handler;
  context_appending_task : option Handler;
  waiting_for_ttfb : bool
}.

(** The state [__init__] leaves. *)
Definition init : State := {|
  websocket := None;
  context_id := None;
  context_id_start_timestamp := None;
  timestamped_words_buffer := [];
  receive_task := None;
  context_appending_task := None;
  waiting_for_ttfb := false
|}.

Definition with_websocket (w : option WebSocket) (s : State) : State :=
  {| websocket := w;
     context_id := context_id s;
     context_id_start_timestamp := context_id_start_timestamp s;
     timestamped_words_buffer := timestamped_words_buffer s;
     receive_task := receive_task s;
     context_appending_task := context_appending_task s;
     waiting_for_ttfb := waiting_for_ttfb s |}.

Definition with_context_id (c : option string) (s : State) : State :=
  {| websocket := websocket s;
     context_id := c;
     context_id_start_timestamp := context_id_start_timestamp s;
     timestamped_words_buffer := timestamped_words_buffer s;
     receive_task := receive_task s;
     context_appending_task := context_appending_task s;
     waiting_for_ttfb := waiting_for_ttfb s |}.

Definition with_start_timestamp (t : option Q) (s : State) : State :=
  {| websocket := websocket s;
     context_id := context_id s;
     context_id_start_timestamp := t;
     timestamped_words_buffer := timestamped_words_buffer s;
     receive_task := receive_task s;
     context_appending_task := context_appending_task s;
     waiting_for_ttfb := waiting_for_ttfb s |}.

Definition with_buffer (b : list Entry) (s : State) : State :=
  {| websocket := websocket s;
     context_id := context_id s;
     context_id_start_timestamp := context_id_start_timestamp s;
     timestamped_words_buffer := b;
     receive_task := receive_task s;
     context_appending_task := context_appending_task s;
     waiting_for_ttfb := waiting_for_ttfb s |}.

Definition with_receive_task (t : option Handler) (s : State) : State :=
  {| websocket := websocket s;
     context_id := context_id s;
     context_id_start_timestamp := context_id_start_timestamp s;
     timestamped_words_buffer := timestamped_words_buffer s;
     receive_task := t;
     context_appending_task := context_appending_task s;
     waiting_for_ttfb := waiting_for_ttfb s |}.

Definition with_context_appending_task (t : option Handler) (s : State) : State :=
  {| websocket := websocket s;
     context_id := context_id s;
     context_id_start_timestamp := context_id_start_timestamp s;
     timestamped_words_buffer := timestamped_words_buffer s;
     receive_task := receive_task s;
     context_appending_task := t;
     waiting_for_ttfb := waiting_for_ttfb s |}.

Definition with_waiting_for_ttfb (b : bool) (s : State) : State :=
  {| websocket := websocket s;
     context_id := context_id s;
     context_id_start_timestamp := context_id_start_timestamp s;
     timestamped_words_buffer := timestamped_words_buffer s;
     receive_task := receive_task s;
     context_appending_task := context_appending_task s;
     waiting_for_ttfb := b |}.

(** ** The monad of the methods: state, effect log, exceptions *)

Definition M (A : Type) : Type := State -> result A * State * list Event.

Definition ret {A} (a : A) : M A := fun s => (Ok a, s, []).

Definition bind {A B} (m : M A) (k : A -> M B) : M B :=
  fun s =>
    match m s with
    | (Ok a, s1, log1) =>
        match k a s1 with
        | (r, s2, log2) => (r, s2, log1 ++ log2)
        end
    | (Raise e, s1, log1) => (Raise e, s1, log1)
    end.

Notation "x <- m ;; k" := (bind m (fun x => k))
  (at level 61, m at next level, right associativity).
Notation "m ;; k" := (bind m (fun _ => k))
  (at level 61, right associativity).

Definition get : M State := fun s => (Ok s, s, []).
Definition modify (f : State -> State) : M unit := fun s => (Ok tt, f s, []).
Definition emit (e : Event) : M unit := fun s => (Ok tt, s, [e]).
Definition raise {A} (e : exn) : M A := fun s => (Raise e, s, []).

Definition lift {A} (r : result A) : M A :=
  match r with
  | Ok a => ret a
  | Raise e => raise e
  end.

(** [try: m  except Exception as e: handler e] *)
Definition try_except {A} (m : M A) (handler : exn -> M A) : M A :=
  fun s =>
    match m s with
    | (Ok a, s1, log1) => (Ok a, s1, log1)
    | (Raise e, s1, log1) =>
        match handler e s1 with
        | (r, s2, log2) => (r, s2, log1 ++ log2)
        end
    end.

Definition when (b : bool) (m : M unit) : M unit :=
  if b then m else ret tt.

Definition is_some {A} (o : option A) : bool :=
  match o with Some _ => true | None => false end.

Definition push_frame (f : Frame) : M unit := emit (EvPushFrame f).
Definition logger_exception (e : exn) : M unit := emit (EvLogException e).

(** The sentinel ["done"] appends: [["LLMFullResponseEndFrame", 0]]. *)
Definition sentinel : Entry := (JStr "LLMFullResponseEndFrame", JNum 0).

Definition is_sentinel (word timestamp : json) : bool :=
  eq_str word "LLMFullResponseEndFrame" && eq_num timestamp 0.

(** ** The methods of [CartesiaTTSService] *)

Section Service.

(** The constructor arguments of this instance. *)
Variable cfg : Config.

(** [base64.b64decode] on a string: the bytes, or [None] where it raises. *)
Variable b64decode : string -> option string.

Definition connect_uri : string :=
  (url cfg ++ "?api_key=" ++ api_key cfg
     ++ "&cartesia_version=" ++ cartesia_version cfg)%string.

(** [await websockets.connect(uri)]; [ok] tells whether it succeeds. *)
Definition websockets_connect (ok : bool) : M WebSocket :=
  emit (EvConnect connect_uri ok) ;;
  if ok then ret (Socket connect_uri) else raise TransportError.

Definition create_task (h : Handler) : M Handler :=
  emit (EvCreateTask h) ;; ret h.

Definition connect (ok : bool) : M unit :=
  try_except
    (ws <- websockets_connect ok ;;
     modify (with_websocket (Some ws)) ;;
     t <- create_task ReceiveTaskHandler ;;
     modify (with_receive_task (Some t)) ;;
     t <- create_task ContextAppendingTaskHandler ;;
     modify (with_context_appending_task (Some t)))
    (fun e =>
       logger_exception e ;;
       modify (with_websocket None)).

(** [await ws.close()]; [ok] tells whether it succeeds. *)
Definition ws_close (ws : WebSocket) (ok : bool) : M unit :=
  emit (EvClose ws ok) ;;
  if ok then ret tt else raise TransportError.

Definition disconnect (close_ok : bool) : M unit :=
  try_except
    (s <- get ;;
     when (is_some (context_appending_task s))
       (emit (EvCancelTask ContextAppendingTaskHandler) ;;
        modify (with_context_appending_task None)) ;;
     s <- get ;;
     when (is_some (receive_task s))
       (emit (EvCancelTask ReceiveTaskHandler) ;;
        modify (with_receive_task None)) ;;
     s <- get ;;
     match websocket s with
     | Some ws =>
         modify (with_websocket None) ;;
         ws_close ws close_ok
     | None => ret tt
     end ;;
     modify (with_context_id None) ;;
     modify (with_start_timestamp None) ;;
     modify (with_buffer []) ;;
     modify (with_waiting_for_ttfb false) ;;
     emit EvStopAllMetrics)
    (fun e => logger_exception e).

Definition handle_interruption : M unit :=
  emit EvSuperHandleInterruption ;;
  modify (with_context_id None) ;;
  modify (with_start_timestamp None) ;;
  modify (with_buffer []) ;;
  emit EvStopAllMetrics ;;
  push_frame LLMFullResponseEndFrame.

(** [json.loads(message)]: a frame that is not JSON text is [None]. *)
Definition Message : Type := option json.

Definition json_loads (message : Message) : M json :=
  match message with
  | Some j => ret j
  | None => raise JSONDecodeError
  end.

(** [base64.b64decode(d)] for the value [d] of the message's ["data"]. *)
Definition base64_b64decode (d : json) : M string :=
  match d with
  | JStr s =>
      match b64decode s with
      | Some bytes => ret bytes
      | None => raise Base64Error
      end
  | _ => raise TypeError
  end.

(** [list(zip(words, ends))] *)
Definition zip (words ends : json) : M (list Entry) :=
  ws <- lift (iter words) ;;
  es <- lift (iter ends) ;;
  ret (combine ws es).

(** The body of the [async for] of [_receive_task_handler] for one
    message, read at clock time [now]. *)
Definition receive_message (now : Q) (message : Message) : M unit :=
  msg <- json_loads message ;;
  s <- get ;;
  skip <- (if negb (truthy msg) then ret true
           else c <- lift (getitem msg "context_id") ;;
                ret (ne_context c (context_id s))) ;;
  if skip then ret tt
  else
    ty <- lift (getitem msg "type") ;;
    when (eq_str ty "done")
      (modify (with_context_id None) ;;
       s <- get ;;
       modify (with_buffer (timestamped_words_buffer s ++ [sentinel]))) ;;
    ty <- lift (getitem msg "type") ;;
    if eq_str ty "timestamps" then
      wt <- lift (getitem msg "word_timestamps") ;;
      words <- lift (getitem wt "words") ;;
      wt <- lift (getitem msg "word_timestamps") ;;
      ends <- lift (getitem wt "end") ;;
      pairs <- zip words ends ;;
      s <- get ;;
      modify (with_buffer (timestamped_words_buffer s ++ pairs))
    else
      ty <- lift (getitem msg "type") ;;
      when (eq_str ty "chunk")
        (s <- get ;;
         when (no_timestamp (context_id_start_timestamp s))
           (modify (with_start_timestamp (Some now))) ;;
         s <- get ;;
         when (waiting_for_ttfb s)
           (emit EvStopTtfbMetrics ;;
            modify (with_waiting_for_ttfb false)) ;;
         d <- lift (getitem msg "data") ;;
         audio <- base64_b64decode d ;;
         push_frame (AudioRawFrame audio (sample_rate (output_format cfg)) 1)).

(** The [async for]: the messages of the socket, each with the clock
    reading at which its body runs. An exception leaves the loop. *)
Fixpoint receive_loop (messages : list (Q * Message)) : M unit :=
  match messages with
  | [] => ret tt
  | (now, message) :: rest =>
      receive_message now message ;;
      receive_loop rest
  end.

Definition receive_task_handler (messages : list (Q * Message)) : M unit :=
  try_except (receive_loop messages) (fun e => logger_exception e).

(** The inner [while] of [_context_appending_task_handler]: [buffer] is
    [self._timestamped_words_buffer] as the loop test reads it. *)
Fixpoint replay (elapsed_seconds : Q) (buffer : list Entry) : M unit :=
  match buffer with
  | [] => ret tt
  | (word, timestamp) :: rest =>
      due <- lift (le_num timestamp elapsed_seconds) ;;
      if due then
        modify (with_buffer rest) ;;
        (if is_sentinel word timestamp
         then push_frame LLMFullResponseEndFrame
         else push_frame (TextFrame word)) ;;
        replay elapsed_seconds rest
      else ret tt
  end.

(** One turn of the [while True] after the sleep, at clock time [now]. *)
Definition tick (now : Q) : M unit :=
  s <- get ;;
  match context_id_start_timestamp s with
  | Some start =>
      if Qeq_bool start 0 then ret tt
      else replay (now - start) (timestamped_words_buffer s)
  | None => ret tt
  end.

Fixpoint tick_loop (nows : list Q) : M unit :=
  match nows with
  | [] => ret tt
  | now :: rest => tick now ;; tick_loop rest
  end.

Definition context_appending_task_handler (nows : list Q) : M unit :=
  try_except (tick_loop nows) (fun e => logger_exception e).

(** What the outside world decides during one [run_tts]. *)
Record TtsEnv : Type := {
  connect_ok : bool;
  uuid4 : string;
  send_ok : bool;
  close_ok : bool;
  reconnect_ok : bool
}.

Definition build_request (text : string) (c : option string) : Request :=
  {| transcript := (text ++ " ")%string;
     continue := true;
     request_context_id := c;
     request_model_id := model_id cfg;
     voice := {| mode := "id"; id := voice_id cfg |};
     request_output_format := output_format cfg;
     request_language := language cfg;
     add_timestamps := true |}.

(** [await self._websocket.send(json.dumps(msg))] *)
Definition ws_send (r : Request) (ok : bool) : M unit :=
  s <- get ;;
  match websocket s with
  | None => raise AttributeError
  | Some ws =>
      emit (EvSend ws r ok) ;;
      if ok then ret tt else raise TransportError
  end.

(** The generator [run_tts]: the result is the list of values it yields. *)
Definition run_tts (env : TtsEnv) (text : string) : M (list (option Frame)) :=
  emit (EvLogDebug ("Generating TTS: [" ++ text ++ "]")%string) ;;
  try_except
    (s <- get ;;
     when (negb (is_some (websocket s))) (connect (connect_ok env)) ;;
     s <- get ;;
     when (negb (waiting_for_ttfb s))
       (emit EvStartTtfbMetrics ;;
        modify (with_waiting_for_ttfb true)) ;;
     s <- get ;;
     when (no_context (context_id s))
       (modify (with_context_id (Some (uuid4 env)))) ;;
     s <- get ;;
     let msg := build_request text (context_id s) in
     try_except
       (ws_send msg (send_ok env) ;;
        ret [None])
       (fun e =>
          logger_exception e ;;
          disconnect (close_ok env) ;;
          connect (reconnect_ok env) ;;
          ret []))
    (fun e => logger_exception e ;; ret []).

End Service.

(** ** Runs of the service *)

(** What can happen to the service, one body at a time: a turn of either
    background loop, or a call of one of its methods by the pipeline. *)
Inductive Turn : Type :=
| Tick (now : Q)
| Receive (now : Q) (message : Message)
| RunTts (env : TtsEnv) (text : string)
| Interrupt
| Disconnect (close_ok : bool)
| Connect (ok : bool).

Definition step cfg b64decode (t : Turn) : M unit :=
  match t with
  | Tick now => tick now
  | Receive now message => receive_message cfg b64decode now message
  | RunTts env text => run_tts cfg env text ;; ret tt
  | Interrupt => handle_interruption
  | Disconnect close_ok => disconnect close_ok
  | Connect ok => connect cfg ok
  end.

(** The turns in order, up to the first exception that leaves a body. *)
Fixpoint run cfg b64decode (turns : list Turn) : M unit :=
  match turns with
  | [] => ret tt
  | t :: rest => step cfg b64decode t ;; run cfg b64decode rest
  end.

(** The turn is a tick, or a message tagged with a context id that is not
    null. *)
Definition tagged (t : Turn) : Prop :=
  match t with
  | Tick _ => True
  | Receive _ message =>
      exists msg c,
        message = Some msg /\ getitem msg "context_id" = Ok c /\ c <> JNull
  | _ => False
  end.

(** The turn handles a message tagged with the context id [old]. *)
Definition of_context (old : string) (t : Turn) : bool :=
  match t with
  | Receive _ (Some msg) =>
      match getitem msg "context_id" with
      | Ok (JStr c) => (c =? old)%string
      | _ => false
      end
  | _ => false
  end.

(** The turn does not hand out [old] as a new context id. *)
Definition fresh_for (old : string) (t : Turn) : Prop :=
  match t with
  | RunTts env _ => uuid4 env <> old
  | _ => True
  end.

(** The cancellations [disconnect] requests in state [s]. *)
Definition cancellations (s : State) : list Event :=
  (if is_some (context_appending_task s)
   then [EvCancelTask ContextAppendingTaskHandler] else [])
  ++ (if is_some (receive_task s)
      then [EvCancelTask ReceiveTaskHandler] else []).


(** ** Reading a run *)

Definition result_of {A} (r : result A * State * list Event) : result A :=
  fst (fst r).
Definition state_of {A} (r : result A * State * list Event) : State :=
  snd (fst r).
Definition log_of {A} (r : result A * State * list Event) : list Event :=
  snd r.

(** The frames a log pushes downstream, in order. *)
Fixpoint frames (log : list Event) : list Frame :=
  match log with
  | [] => []
  | EvPushFrame f :: rest => f :: frames rest
  | _ :: rest => frames rest
  end.

Definition is_marker (f : Frame) : bool :=
  match f with
  | LLMFullResponseEndFrame => true
  | _ => false
  end.

(** How many "response finished" markers a log pushes. *)
Definition markers (log : list Event) : nat :=
  List.length (filter is_marker (frames log)).

(** The frame the scheduler pushes for a popped entry. *)
Definition frame_of (e : Entry) : Frame :=
  if is_sentinel (fst e) (snd e) then LLMFullResponseEndFrame
  else TextFrame (fst e).

(** ** A concrete instance for the scenarios *)

(** The defaults of [__init__] with the voice of the example script. *)
Definition sample_cfg : Config := {|
  api_key := "key";
  cartesia_version := "2024-06-10";
  url := "wss://api.cartesia.ai/tts/websocket";
  voice_id := "a0e99841-438c-4a64-b679-ae501e7d6091";
  model_id := "sonic-english";
  output_format :=
    {| container := "raw"; encoding := "pcm_s16le"; sample_rate := 16000 |};
  language := "en"
|}.

(** The fragment of base64 the scenarios use: ["aGk="] is ["hi"] and
    ["eW8="] is ["yo"]. *)
Definition sample_b64decode (s : string) : option string :=
  if (s =? "aGk=")%string then Some "hi"
  else if (s =? "eW8=")%string then Some "yo"
  else None.

Definition chunk_message (c : json) (data : string) : json :=
  JObj [("type", JStr "chunk"); ("context_id", c); ("data", JStr data)].

Definition done_message (c : json) : json :=
  JObj [("type", JStr "done"); ("context_id", c)].

Definition timestamps_message (c : json) (words ends : list json) : json :=
  JObj [("type", JStr "timestamps"); ("context_id", c);
        ("word_timestamps", JObj [("words", JArr words); ("end", JArr ends)])].

(** A connected service with context ["ctx-1"] open and a request sent. *)
Definition sample_open : State := {|
  websocket := Some (Socket (connect_uri sample_cfg));
  context_id := Some "ctx-1";
  context_id_start_timestamp := None;
  timestamped_words_buffer := [];
  receive_task := Some ReceiveTaskHandler;
  context_appending_task := Some ContextAppendingTaskHandler;
  waiting_for_ttfb := true
|}.

(** The effect of popping an entry. *)
Definition push (e : Entry) : Event := EvPushFrame (frame_of e).

(** A timeline entry as a ["timestamps"] message delivers it: a word and
    its end offset in seconds. *)
Definition to_entry (w : string * Q) : Entry := (JStr (fst w), JNum (snd w)).

(** The word is not the reserved pair the sentinel is made of. *)
Definition plain_word (w : string * Q) : Prop :=
  is_sentinel (JStr (fst w)) (JNum (snd w)) = false.

(** The scenario of the specification: the first chunk of ["ctx-1"] came
    at clock time 100, then the timestamps of two words, then ["done"]. *)
Definition sample_replaying : State := {|
  websocket := Some (Socket (connect_uri sample_cfg));
  context_id := None;
  context_id_start_timestamp := Some 100;
  timestamped_words_buffer :=
    [to_entry ("hello", 3 # 10); to_entry ("world", 6 # 10); sentinel];
  receive_task := Some ReceiveTaskHandler;
  context_appending_task := Some ContextAppendingTaskHandler;
  waiting_for_ttfb := false
|}.

(** The same service while ["ctx-1"] is being spoken: the first chunk came
    at clock time 100 and two words are queued. *)
Definition sample_speaking : State := {|
  websocket := Some (Socket (connect_uri sample_cfg));
  context_id := Some "ctx-1";
  context_id_start_timestamp := Some 100;
  timestamped_words_buffer :=
    [to_entry ("hello", 3 # 10); to_entry ("world", 6 # 10)];
  receive_task := Some ReceiveTaskHandler;
  context_appending_task := Some ContextAppendingTaskHandler;
  waiting_for_ttfb := false
|}.

(** A world in which every socket operation succeeds and [uuid.uuid4()]
    returns [u]. *)
Definition env_ok (u : string) : TtsEnv := {|
  connect_ok := true;
  uuid4 := u;
  send_ok := true;
  close_ok := true;
  reconnect_ok := true
|}.

Definition sample_receive (now : Q) (msg : json) : M unit :=
  receive_message sample_cfg sample_b64decode now (Some msg).

(** A first response that completes normally: the request, its first chunk
    at clock time 100, the timestamps of two words, ["done"], and a tick
    once both words are due. *)
Definition first_response : M unit :=
  run_tts sample_cfg (env_ok "ctx-1") "Hello world." ;;
  sample_receive 100 (chunk_message (JStr "ctx-1") "aGk=") ;;
  sample_receive (1001 # 10)
    (timestamps_message (JStr "ctx-1")
       [JStr "hello"; JStr "world"] [JNum (3 # 10); JNum (6 # 10)]) ;;
  sample_receive (1002 # 10) (done_message (JStr "ctx-1")) ;;
  tick (1007 # 10).

(** A second response after the first: the request, its first chunk at
    clock time 200, and the timestamp of its one word, due at 0.5 s. *)
Definition second_response : M unit :=
  first_response ;;
  run_tts sample_cfg (env_ok "ctx-2") "Bye." ;;
  sample_receive 200 (chunk_message (JStr "ctx-2") "eW8=") ;;
  sample_receive (2001 # 10)
    (timestamps_message (JStr "ctx-2") [JStr "bye"] [JNum (5 # 10)]).


Definition is_send (e : Event) : bool :=
  match e with
  | EvSend _ _ _ => true
  | _ => false
  end.

(** Case analysis along the tests of [receive_message]. *)
Ltac crack :=
  repeat (simpl;
    match goal with
    | |- context [truthy ?x] => destruct (truthy x)
    | |- context [getitem ?x ?k] => destruct (getitem x k)
    | |- context [ne_context ?a ?b] => destruct (ne_context a b)
    | |- context [eq_str ?a ?b] => destruct (eq_str a b)
    | |- context [iter ?a] => destruct (iter a)
    | |- context [no_timestamp ?a] => destruct (no_timestamp a)
    | |- context [waiting_for_ttfb ?a] => destruct (waiting_for_ttfb a)
    | |- context [match ?d with JNull => _ | _ => _ end] => is_var d; destruct d
    | |- context [match ?f ?d with Some _ => _ | None => _ end] =>
        is_var f; destruct (f d)
    end).

(** The state a successful [connect] leaves when nothing else is set. *)
Definition connected (cfg : Config) : State := {|
  websocket := Some (Socket (connect_uri cfg));
  context_id := None;
  context_id_start_timestamp := None;
  timestamped_words_buffer := [];
  receive_task := Some ReceiveTaskHandler;
  context_appending_task := Some ContextAppendingTaskHandler;
  waiting_for_ttfb := false
|}.

(** A socket is held only together with both background task handles. *)
Definition socket_has_tasks (s : State) : Prop :=
  is_some (websocket s) = true ->
  is_some (receive_task s) = true
  /\ is_some (context_appending_task s) = true.

Definition is_ttfb_start (e : Event) : bool :=
  match e with
  | EvStartTtfbMetrics => true
  | _ => false
  end.

(** The event pushes a text frame or the end-of-response marker. *)
Definition pushes_text_or_marker (e : Event) : Prop :=
  match e with
  | EvPushFrame (TextFrame _) => True
  | EvPushFrame LLMFullResponseEndFrame => True
  | _ => False
  end.

(** ** Basic facts *)

Lemma getitem_truthy (msg : json) (key : string) (v : json) :
  getitem msg key = Ok v -> truthy msg = true.
Proof.
  destruct msg as [| | | | |items]; simpl; try discriminate.
  destruct items; simpl; [discriminate | reflexivity].
Qed.



(** A message tagged with a context id other than the current one is
    skipped by the filter at the head of the loop body. *)
Lemma receive_message_skips cfg b64decode (now : Q) (msg c : json) (s : State) :
  getitem msg "context_id" = Ok c ->
  ne_context c (context_id s) = true ->
  receive_message cfg b64decode now (Some msg) s = (Ok tt, s, []).
Proof.
  intros Hget Hne.
  unfold receive_message, bind, json_loads, get, ret.
  rewrite (getitem_truthy _ _ _ Hget). simpl.
  rewrite Hget. simpl. rewrite Hne. reflexivity.
Qed.

Lemma eq_str_true (j : json) (s : string) :
  eq_str j s = true -> j = JStr s.
Proof.
  destruct j; simpl; try discriminate.
  intros H. apply String.eqb_eq in H. now subst.
Qed.

Lemma ne_context_none (c : json) : c <> JNull -> ne_context c None = true.
Proof. destruct c; simpl; congruence. Qed.

(** ["done"] for the current context: the context id is cleared, the start
    timestamp kept, and the sentinel queued; nothing is pushed. *)
Lemma receive_message_done cfg b64decode (now : Q) (msg ty : json) (c : string)
    (s : State) :
  context_id s = Some c ->
  getitem msg "context_id" = Ok (JStr c) ->
  getitem msg "type" = Ok ty ->
  eq_str ty "done" = true ->
  receive_message cfg b64decode now (Some msg) s
  = (Ok tt,
     with_buffer (timestamped_words_buffer s ++ [sentinel])
       (with_context_id None s),
     []).
Proof.
  intros Hc Hget Hty Hdone.
  apply eq_str_true in Hdone. subst ty.
  unfold receive_message, bind, json_loads, get, ret.
  rewrite (getitem_truthy _ _ _ Hget). simpl.
  rewrite Hget. simpl. rewrite Hc, String.eqb_refl. simpl.
  rewrite Hty. simpl. reflexivity.
Qed.

(** A message that is not JSON, or a truthy one that is not a dict or has
    no ["context_id"] key, raises before anything is read or written. *)
Lemma receive_message_undecodable cfg b64decode (now : Q) (s : State) :
  receive_message cfg b64decode now None s = (Raise JSONDecodeError, s, []).
Proof. reflexivity. Qed.

Lemma receive_message_no_key cfg b64decode (now : Q) (msg : json) (e : exn)
    (s : State) :
  truthy msg = true ->
  getitem msg "context_id" = Raise e ->
  receive_message cfg b64decode now (Some msg) s = (Raise e, s, []).
Proof.
  intros Ht Hget.
  unfold receive_message, bind, json_loads, get, ret.
  rewrite Ht. simpl. rewrite Hget. reflexivity.
Qed.

Lemma receive_message_falsy cfg b64decode (now : Q) (msg : json) (s : State) :
  truthy msg = false ->
  receive_message cfg b64decode now (Some msg) s = (Ok tt, s, []).
Proof.
  intros Ht.
  unfold receive_message, bind, json_loads, get, ret.
  rewrite Ht. reflexivity.
Qed.

(** The monad laws the proofs use, pointwise. *)
Lemma bind_ret_l {A B} (a : A) (k : A -> M B) (s : State) :
  bind (ret a) k s = k a s.
Proof.
  unfold bind, ret. destruct (k a s) as [[r s2] log2]. reflexivity.
Qed.

Lemma bind_assoc {A B C} (m : M A) (f : A -> M B) (g : B -> M C) (s : State) :
  bind (bind m f) g s = bind m (fun a => bind (f a) g) s.
Proof.
  unfold bind.
  destruct (m s) as [[[a|e] s1] log1]; [|reflexivity].
  destruct (f a s1) as [[[b|e] s2] log2]; [|reflexivity].
  destruct (g b s2) as [[r s3] log3]. now rewrite app_assoc.
Qed.

Lemma bind_ext {A B} (m : M A) (f g : A -> M B) (s : State) :
  (forall a s', f a s' = g a s') -> bind m f s = bind m g s.
Proof.
  intros H. unfold bind.
  destruct (m s) as [[[a|e] s1] log1]; [|reflexivity].
  now rewrite H.
Qed.

Lemma bind_ok {A B} (m : M A) (k : A -> M B) (s s1 : State) (a : A)
    (log1 : list Event) :
  m s = (Ok a, s1, log1) ->
  bind m k s
  = (result_of (k a s1), state_of (k a s1), log1 ++ log_of (k a s1)).
Proof.
  intros H. unfold bind. rewrite H.
  destruct (k a s1) as [[r s2] log2]. reflexivity.
Qed.

Lemma bind_raise {A B} (m : M A) (k : A -> M B) (s s1 : State) (e : exn)
    (log1 : list Event) :
  m s = (Raise e, s1, log1) ->
  bind m k s = (Raise e, s1, log1).
Proof. intros H. unfold bind. now rewrite H. Qed.

(** The loop over a list of messages splits at any point. *)
Lemma receive_loop_app cfg b64decode (l1 l2 : list (Q * Message)) (s : State) :
  receive_loop cfg b64decode (l1 ++ l2) s
  = bind (receive_loop cfg b64decode l1)
         (fun _ => receive_loop cfg b64decode l2) s.
Proof.
  revert s. induction l1 as [|[now m] l1 IH]; intros s.
  - simpl. now rewrite bind_ret_l.
  - simpl. rewrite bind_assoc. apply bind_ext. intros _ s'. apply IH.
Qed.

(** The handler wraps the whole loop: the first exception is logged once and
    ends it, whatever messages were still to come. *)
Lemma receive_task_handler_stops cfg b64decode
    (before rest : list (Q * Message)) (now : Q) (m : Message) (e : exn)
    (s s1 s2 : State) (log1 log2 : list Event) :
  receive_loop cfg b64decode before s = (Ok tt, s1, log1) ->
  receive_message cfg b64decode now m s1 = (Raise e, s2, log2) ->
  receive_task_handler cfg b64decode (before ++ (now, m) :: rest) s
  = (Ok tt, s2, log1 ++ log2 ++ [EvLogException e]).
Proof.
  intros Hb Hm.
  unfold receive_task_handler, try_except.
  rewrite receive_loop_app, (bind_ok _ _ _ _ _ _ Hb).
  simpl receive_loop. rewrite (bind_raise _ _ _ _ _ _ Hm).
  unfold result_of, state_of, log_of, logger_exception, emit. simpl.
  now rewrite app_assoc.
Qed.

Lemma receive_task_handler_returns cfg b64decode
    (messages : list (Q * Message)) (s : State) :
  result_of (receive_task_handler cfg b64decode messages s) = Ok tt.
Proof.
  unfold receive_task_handler, try_except, result_of.
  destruct (receive_loop cfg b64decode messages s) as [[[[]|e] s1] log1];
    reflexivity.
Qed.

(** ** The inbound demultiplexer *)

(** C8: a message whose context id differs from the tracked one changes no
    field of the service and produces no effect at all, so no frame. *)
Theorem stale_message_has_no_effect cfg b64decode (now : Q) (msg c : json)
    (s : State) :
  getitem msg "context_id" = Ok c ->
  ne_context c (context_id s) = true ->
  receive_message cfg b64decode now (Some msg) s = (Ok tt, s, [])
  /\ frames (log_of (receive_message cfg b64decode now (Some msg) s)) = [].
Proof.
  intros Hget Hne.
  rewrite (receive_message_skips cfg b64decode now msg c s Hget Hne).
  split; reflexivity.
Qed.

Lemma stale_message_has_no_effect_witness :
  let stale := chunk_message (JStr "ctx-0") "aGk=" in
  receive_message sample_cfg sample_b64decode 7 (Some stale) sample_open
  = (Ok tt, sample_open, [])
  /\ frames (log_of (receive_message sample_cfg sample_b64decode 7
                       (Some stale) sample_open)) = [].
Proof.
  apply (stale_message_has_no_effect sample_cfg sample_b64decode 7
           (chunk_message (JStr "ctx-0") "aGk=") (JStr "ctx-0") sample_open);
    reflexivity.
Defined.

(** C10 as stated fails: with no context tracked, a chunk whose context id
    is JSON null passes the filter ([None != None] is false); the start
    timestamp is written and an audio frame is pushed. *)
Lemma null_context_message_is_processed :
  context_id init = None
  /\ receive_message sample_cfg sample_b64decode 5
       (Some (chunk_message JNull "aGk=")) init
     = (Ok tt, with_start_timestamp (Some 5) init,
        [EvPushFrame (AudioRawFrame "hi" 16000 1)]).
Proof. split; reflexivity. Qed.

(** C10, amended: with no context tracked, every message whose context id
    is not null is discarded without touching the state or pushing a frame;
    in particular, once ["done"] has cleared the id, a later message of the
    same context is lost. *)
Theorem untracked_messages_are_discarded cfg b64decode :
  (forall (now : Q) (msg c : json) (s : State),
      context_id s = None ->
      getitem msg "context_id" = Ok c ->
      c <> JNull ->
      receive_message cfg b64decode now (Some msg) s = (Ok tt, s, []))
  /\ (forall (now1 now2 : Q) (done late ty : json) (c : string) (s : State),
        context_id s = Some c ->
        getitem done "context_id" = Ok (JStr c) ->
        getitem done "type" = Ok ty ->
        eq_str ty "done" = true ->
        getitem late "context_id" = Ok (JStr c) ->
        receive_loop cfg b64decode [(now1, Some done); (now2, Some late)] s
        = (Ok tt,
           with_buffer (timestamped_words_buffer s ++ [sentinel])
             (with_context_id None s),
           [])).
Proof.
  split.
  - intros now msg c s Hs Hget Hc.
    apply (receive_message_skips cfg b64decode now msg c s Hget).
    rewrite Hs. now apply ne_context_none.
  - intros now1 now2 done late ty c s Hs Hget Hty Hdone Hlate.
    simpl receive_loop.
    rewrite (bind_ok _ _ _ _ _ _
               (receive_message_done cfg b64decode now1 done ty c s
                  Hs Hget Hty Hdone)).
    set (s1 := with_buffer _ _).
    assert (Hskip : receive_message cfg b64decode now2 (Some late) s1
                    = (Ok tt, s1, [])).
    { apply receive_message_skips with (c := JStr c);
        [exact Hlate | reflexivity]. }
    rewrite (bind_ok _ _ _ _ _ _ Hskip). reflexivity.
Qed.

Lemma untracked_messages_are_discarded_witness :
  receive_message sample_cfg sample_b64decode 9
    (Some (timestamps_message (JStr "ctx-1") [JStr "hello"] [JNum (3 # 10)]))
    init
  = (Ok tt, init, [])
  /\ receive_loop sample_cfg sample_b64decode
       [(8, Some (done_message (JStr "ctx-1")));
        (9, Some (timestamps_message (JStr "ctx-1")
                    [JStr "hello"] [JNum (3 # 10)]))]
       sample_open
     = (Ok tt,
        with_buffer [sentinel] (with_context_id None sample_open),
        []).
Proof.
  split.
  - apply (proj1 (untracked_messages_are_discarded sample_cfg sample_b64decode)
             9 _ (JStr "ctx-1") init); [reflexivity | reflexivity | discriminate].
  - apply (proj2 (untracked_messages_are_discarded sample_cfg sample_b64decode)
             8 9 (done_message (JStr "ctx-1")) _ (JStr "done") "ctx-1"
             sample_open); reflexivity.
Defined.

(** C3 as stated fails: a chunk without a context id is not dropped
    silently but raises [KeyError], which is logged and ends the loop; the
    well-formed chunk of the current context behind it is never handled,
    although on its own it yields an audio frame. *)
Lemma missing_context_id_ends_the_loop :
  let orphan := JObj [("type", JStr "chunk"); ("data", JStr "aGk=")] in
  let good := chunk_message (JStr "ctx-1") "eW8=" in
  receive_task_handler sample_cfg sample_b64decode
    [(1, Some orphan); (2, Some good)] sample_open
  = (Ok tt, sample_open, [EvLogException (KeyError "context_id")])
  /\ frames (log_of (receive_task_handler sample_cfg sample_b64decode
                       [(2, Some good)] sample_open))
     = [AudioRawFrame "yo" 16000 1].
Proof. split; reflexivity. Qed.

(** C3, amended: a message that decodes to a falsy value is dropped
    silently; a truthy message from which ["context_id"] cannot be read
    raises; and the first exception raised while handling a message is
    logged once and ends the loop, the remaining messages being left
    unread, while the handler itself returns normally. *)
Theorem receive_errors_end_the_loop cfg b64decode :
  (forall (now : Q) (msg : json) (s : State),
      truthy msg = false ->
      receive_message cfg b64decode now (Some msg) s = (Ok tt, s, []))
  /\ (forall (now : Q) (msg : json) (e : exn) (s : State),
        truthy msg = true ->
        getitem msg "context_id" = Raise e ->
        receive_message cfg b64decode now (Some msg) s = (Raise e, s, []))
  /\ (forall (before rest : list (Q * Message)) (now : Q) (m : Message)
             (e : exn) (s s1 s2 : State) (log1 log2 : list Event),
        receive_loop cfg b64decode before s = (Ok tt, s1, log1) ->
        receive_message cfg b64decode now m s1 = (Raise e, s2, log2) ->
        receive_task_handler cfg b64decode (before ++ (now, m) :: rest) s
        = (Ok tt, s2, log1 ++ log2 ++ [EvLogException e]))
  /\ (forall (messages : list (Q * Message)) (s : State),
        result_of (receive_task_handler cfg b64decode messages s) = Ok tt).
Proof.
  repeat split.
  - apply receive_message_falsy.
  - apply receive_message_no_key.
  - apply receive_task_handler_stops.
  - apply receive_task_handler_returns.
Qed.

Lemma receive_errors_end_the_loop_witness :
  receive_message sample_cfg sample_b64decode 1 (Some (JObj [])) sample_open
  = (Ok tt, sample_open, [])
  /\ receive_message sample_cfg sample_b64decode 1
       (Some (JObj [("type", JStr "done")])) sample_open
     = (Raise (KeyError "context_id"), sample_open, [])
  /\ receive_task_handler sample_cfg sample_b64decode
       ([(1, Some (done_message (JStr "ctx-0")))]
          ++ (2, None) :: [(3, Some (chunk_message (JStr "ctx-1") "aGk="))])
       sample_open
     = (Ok tt, sample_open, [] ++ [] ++ [EvLogException JSONDecodeError]).
Proof.
  pose proof (receive_errors_end_the_loop sample_cfg sample_b64decode)
    as (Hfalsy & Hkey & Hstop & _).
  split; [|split].
  - apply Hfalsy. reflexivity.
  - apply Hkey; reflexivity.
  - apply (Hstop _ _ 2 None JSONDecodeError sample_open sample_open sample_open);
      reflexivity.
Defined.

(** ** The timeline replay scheduler *)

Lemma replay_nil (elapsed : Q) (s : State) :
  replay elapsed [] s = (Ok tt, s, []).
Proof. reflexivity. Qed.

Lemma replay_due (elapsed : Q) (e : Entry) (rest : list Entry) (s : State) :
  le_num (snd e) elapsed = Ok true ->
  replay elapsed (e :: rest) s
  = (result_of (replay elapsed rest (with_buffer rest s)),
     state_of (replay elapsed rest (with_buffer rest s)),
     push e :: log_of (replay elapsed rest (with_buffer rest s))).
Proof.
  destruct e as [word timestamp]. simpl snd. intros Hdue.
  simpl replay. unfold bind at 1. rewrite Hdue. simpl lift.
  unfold ret at 1, modify, push, frame_of, push_frame, emit, bind. simpl.
  destruct (is_sentinel word timestamp);
    destruct (replay elapsed rest (with_buffer rest s)) as [[r s2] log2];
    reflexivity.
Qed.

Lemma replay_not_due (elapsed : Q) (e : Entry) (rest : list Entry) (s : State) :
  le_num (snd e) elapsed = Ok false ->
  replay elapsed (e :: rest) s = (Ok tt, s, []).
Proof.
  destruct e as [word timestamp]. simpl snd. intros Hdue.
  simpl replay. unfold bind. rewrite Hdue. reflexivity.
Qed.

Lemma replay_raises (elapsed : Q) (e : Entry) (rest : list Entry) (x : exn)
    (s : State) :
  le_num (snd e) elapsed = Raise x ->
  replay elapsed (e :: rest) s = (Raise x, s, []).
Proof.
  destruct e as [word timestamp]. simpl snd. intros Hdue.
  simpl replay. unfold bind. rewrite Hdue. reflexivity.
Qed.

(** The inner loop pops a prefix of the buffer, every entry of it due, and
    pushes one frame per popped entry, in buffer order. *)
Lemma replay_pops_prefix (elapsed : Q) (buffer : list Entry) (s : State) :
  timestamped_words_buffer s = buffer ->
  exists popped : list Entry,
    buffer
    = popped ++ timestamped_words_buffer (state_of (replay elapsed buffer s))
    /\ log_of (replay elapsed buffer s) = map push popped
    /\ Forall (fun e => le_num (snd e) elapsed = Ok true) popped.
Proof.
  revert s. induction buffer as [|e rest IH]; intros s Hs.
  - exists []. rewrite replay_nil. unfold state_of, log_of. simpl.
    now rewrite Hs.
  - destruct (le_num (snd e) elapsed) as [[|]|x] eqn:Hdue.
    + destruct (IH (with_buffer rest s) eq_refl) as (popped & Hbuf & Hlog & Hall).
      exists (e :: popped). rewrite (replay_due _ _ _ _ Hdue).
      unfold state_of, log_of in *. simpl.
      split; [now rewrite <- Hbuf|]. split; [now rewrite Hlog|].
      now constructor.
    + exists []. rewrite (replay_not_due _ _ _ _ Hdue).
      unfold state_of, log_of. simpl. now rewrite Hs.
    + exists []. rewrite (replay_raises _ _ _ _ _ Hdue).
      unfold state_of, log_of. simpl. now rewrite Hs.
Qed.

(** One tick pops a prefix of the buffer; each popped entry is due against
    the recorded start timestamp. *)
Lemma tick_pops_prefix (now : Q) (s : State) :
  exists popped : list Entry,
    timestamped_words_buffer s
    = popped ++ timestamped_words_buffer (state_of (tick now s))
    /\ log_of (tick now s) = map push popped
    /\ (forall e, In e popped ->
          exists start,
            context_id_start_timestamp s = Some start
            /\ le_num (snd e) (now - start) = Ok true).
Proof.
  unfold tick. rewrite bind_ret_l || idtac.
  unfold bind, get.
  destruct (context_id_start_timestamp s) as [start|] eqn:Hstart.
  - destruct (Qeq_bool start 0).
    + exists []. simpl. repeat split. intros e [].
    + destruct (replay_pops_prefix (now - start) (timestamped_words_buffer s)
                  s eq_refl) as (popped & Hbuf & Hlog & Hall).
      exists popped.
      destruct (replay (now - start) (timestamped_words_buffer s) s)
        as [[r s2] log2].
      unfold state_of, log_of in *. simpl in *.
      repeat split; try assumption.
      intros e He. exists start. split; [reflexivity|].
      rewrite Forall_forall in Hall. now apply Hall.
  - exists []. simpl. repeat split. intros e [].
Qed.

(** Over any number of ticks the pushed frames are the frames of a prefix
    of the buffer, in buffer order, and the rest stays queued. *)
Lemma tick_loop_pops_prefix (nows : list Q) (s : State) :
  exists popped : list Entry,
    timestamped_words_buffer s
    = popped ++ timestamped_words_buffer (state_of (tick_loop nows s))
    /\ log_of (tick_loop nows s) = map push popped.
Proof.
  revert s. induction nows as [|now rest IH]; intros s.
  - exists []. split; reflexivity.
  - destruct (tick_pops_prefix now s) as (p1 & Hbuf1 & Hlog1 & _).
    simpl tick_loop. unfold bind.
    destruct (tick now s) as [[[[]|x] s1] log1].
    + destruct (IH s1) as (p2 & Hbuf2 & Hlog2).
      destruct (tick_loop rest s1) as [[r2 s2] log2].
      unfold state_of, log_of in *. simpl in *.
      exists (p1 ++ p2). split.
      * now rewrite Hbuf1, Hbuf2 at 1; rewrite app_assoc.
      * now rewrite Hlog1, Hlog2, map_app.
    + exists p1. split; assumption.
Qed.

Lemma elapsed_nonneg (start now : Q) :
  start <= now -> Qle_bool 0 (now - start) = true.
Proof.
  intros H. apply Qle_bool_iff. unfold Qminus. now apply Qle_minus_iff in H.
Qed.

Lemma le_num_due (q elapsed : Q) :
  q <= elapsed -> le_num (JNum q) elapsed = Ok true.
Proof. intros H. unfold le_num. simpl. f_equal. now apply Qle_bool_iff. Qed.

Lemma push_sentinel : push sentinel = EvPushFrame LLMFullResponseEndFrame.
Proof. reflexivity. Qed.

Lemma push_plain_word (w : string * Q) :
  plain_word w -> push (to_entry w) = EvPushFrame (TextFrame (JStr (fst w))).
Proof.
  unfold plain_word, push, frame_of, to_entry. simpl. now intros ->.
Qed.

(** With a start timestamp recorded, a tick is the inner loop run on the
    buffer with the elapsed time. *)
Lemma tick_replays (now start : Q) (s : State) :
  context_id_start_timestamp s = Some start ->
  Qeq_bool start 0 = false ->
  tick now s = replay (now - start) (timestamped_words_buffer s) s.
Proof.
  intros Hs H0. unfold tick. unfold bind, get. rewrite Hs, H0.
  destruct (replay _ _ s) as [[r s2] log2]. reflexivity.
Qed.

(** Without one, a tick does nothing. *)
Lemma tick_skips (now : Q) (s : State) :
  no_timestamp (context_id_start_timestamp s) = true ->
  tick now s = (Ok tt, s, []).
Proof.
  intros H. unfold tick, bind, get.
  destruct (context_id_start_timestamp s) as [start|]; simpl in H.
  - now rewrite H.
  - reflexivity.
Qed.

(** When every word is due and the clock has not run backwards, the inner
    loop empties a timeline that ends with the sentinel. *)
Lemma replay_all_due (elapsed : Q) (words : list (string * Q)) (s : State) :
  0 <= elapsed ->
  Forall (fun w => snd w <= elapsed) words ->
  Forall plain_word words ->
  replay elapsed (map to_entry words ++ [sentinel]) s
  = (Ok tt, with_buffer [] s,
     map (fun w => EvPushFrame (TextFrame (JStr (fst w)))) words
       ++ [EvPushFrame LLMFullResponseEndFrame]).
Proof.
  intros H0 Hdue Hplain. revert s.
  induction words as [|w rest IH]; intros s.
  - simpl app. rewrite replay_due.
    + rewrite replay_nil, push_sentinel. reflexivity.
    + now apply (le_num_due 0).
  - inversion Hdue as [|? ? Hw Hrest]; subst.
    inversion Hplain as [|? ? Pw Prest]; subst.
    simpl map. simpl app. rewrite replay_due.
    + rewrite (IH Hrest Prest), (push_plain_word _ Pw). reflexivity.
    + now apply (le_num_due (snd w)).
Qed.

Lemma clock_behind_start (start now : Q) :
  now < start -> le_num (JNum 0) (now - start) = Ok false.
Proof.
  intros Hlt. unfold le_num. simpl. f_equal.
  destruct (Qle_bool 0 (now - start)) eqn:H; [|reflexivity].
  exfalso. apply Qle_bool_iff in H. unfold Qminus in H.
  apply Qle_minus_iff in H. exact (Qlt_not_le _ _ Hlt H).
Qed.

(** C1 as stated fails. A sentinel at the front of the queue is not pushed
    while no start timestamp is stored (here after a request whose
    ["done"] came without any audio chunk), nor by a tick whose clock
    reading lies before the stored start; and a delivered word equal to
    the reserved pair of the sentinel is pushed as a marker, not as a
    text frame. *)
Lemma sentinel_can_stay_queued :
  (let s := state_of ((run_tts sample_cfg (env_ok "ctx-1") "Hello world." ;;
                       sample_receive 100 (done_message (JStr "ctx-1"))) init) in
   timestamped_words_buffer s = [sentinel]
   /\ context_id_start_timestamp s = None
   /\ tick_loop [101; 102; 110] s = (Ok tt, s, []))
  /\ (let s := with_buffer [sentinel] sample_replaying in
      context_id_start_timestamp s = Some 100
      /\ tick 99 s = (Ok tt, s, []))
  /\ (let s := with_buffer
                 [to_entry ("LLMFullResponseEndFrame", 0); sentinel]
                 sample_replaying in
      frames (log_of (tick 101 s))
      = [LLMFullResponseEndFrame; LLMFullResponseEndFrame]).
Proof. repeat split. Qed.

(** C1, amended: over any run of ticks the scheduler pushes one frame per
    popped entry, for a prefix of the buffer, in the order the entries
    were appended, and leaves the rest queued; the frame is a text frame
    carrying the word, except for an entry equal to the reserved pair
    [("LLMFullResponseEndFrame", 0)], which is pushed as the marker.
    Within a tick every popped entry has its offset at or below the clock
    reading minus the stored start timestamp, whichever context stored it.
    A sentinel at the front of the queue is pushed in that very tick when
    a non-zero start timestamp is stored and the clock reading is not
    before it; with no start timestamp stored the tick does nothing, and
    with the clock reading before the start the sentinel stays queued.
    When moreover every word is due and none is the reserved pair, the
    tick replays the whole timeline, words first, marker last. *)
Theorem scheduler_replays_in_order :
  (forall (nows : list Q) (s : State),
      exists popped : list Entry,
        timestamped_words_buffer s
        = popped ++ timestamped_words_buffer (state_of (tick_loop nows s))
        /\ log_of (tick_loop nows s) = map push popped
        /\ frames (log_of (tick_loop nows s)) = map frame_of popped)
  /\ (forall (now : Q) (s : State),
        exists popped : list Entry,
          timestamped_words_buffer s
          = popped ++ timestamped_words_buffer (state_of (tick now s))
          /\ log_of (tick now s) = map push popped
          /\ (forall e, In e popped ->
                exists start,
                  context_id_start_timestamp s = Some start
                  /\ le_num (snd e) (now - start) = Ok true))
  /\ (forall (now start : Q) (rest : list Entry) (s : State),
        context_id_start_timestamp s = Some start ->
        Qeq_bool start 0 = false ->
        start <= now ->
        timestamped_words_buffer s = sentinel :: rest ->
        exists log,
          log_of (tick now s) = EvPushFrame LLMFullResponseEndFrame :: log)
  /\ (forall (now start : Q) (words : list (string * Q)) (s : State),
        context_id_start_timestamp s = Some start ->
        Qeq_bool start 0 = false ->
        start <= now ->
        timestamped_words_buffer s = map to_entry words ++ [sentinel] ->
        Forall (fun w => snd w <= now - start) words ->
        Forall plain_word words ->
        tick now s
        = (Ok tt, with_buffer [] s,
           map (fun w => EvPushFrame (TextFrame (JStr (fst w)))) words
             ++ [EvPushFrame LLMFullResponseEndFrame]))
  /\ (forall (now : Q) (s : State),
        no_timestamp (context_id_start_timestamp s) = true ->
        tick now s = (Ok tt, s, []))
  /\ (forall (now start : Q) (rest : list Entry) (s : State),
        context_id_start_timestamp s = Some start ->
        now < start ->
        timestamped_words_buffer s = sentinel :: rest ->
        tick now s = (Ok tt, s, [])).
Proof.
  split; [|split; [|split; [|split; [|split]]]].
  - intros nows s.
    destruct (tick_loop_pops_prefix nows s) as (popped & Hbuf & Hlog).
    exists popped. repeat split; try assumption.
    rewrite Hlog. clear. induction popped as [|e l IH]; simpl; congruence.
  - apply tick_pops_prefix.
  - intros now start rest s Hs H0 Hle Hbuf.
    rewrite (tick_replays now start s Hs H0), Hbuf, replay_due.
    + rewrite push_sentinel. unfold log_of. simpl. eauto.
    + apply (le_num_due 0). apply Qle_bool_iff. now apply elapsed_nonneg.
  - intros now start words s Hs H0 Hle Hbuf Hdue Hplain.
    rewrite (tick_replays now start s Hs H0), Hbuf.
    apply replay_all_due; try assumption.
    apply Qle_bool_iff. now apply elapsed_nonneg.
  - apply tick_skips.
  - intros now start rest s Hs Hlt Hbuf.
    destruct (Qeq_bool start 0) eqn:H0.
    + apply tick_skips. rewrite Hs. exact H0.
    + rewrite (tick_replays now start s Hs H0), Hbuf.
      apply replay_not_due. now apply clock_behind_start.
Qed.

Lemma scheduler_replays_in_order_witness :
  (exists log,
      log_of (tick 100 (with_buffer [sentinel] sample_replaying))
      = EvPushFrame LLMFullResponseEndFrame :: log)
  /\ tick (1006 # 10) sample_replaying
     = (Ok tt, with_buffer [] sample_replaying,
        [EvPushFrame (TextFrame (JStr "hello"));
         EvPushFrame (TextFrame (JStr "world"));
         EvPushFrame LLMFullResponseEndFrame])
  /\ tick 101 (with_buffer [sentinel] sample_open)
     = (Ok tt, with_buffer [sentinel] sample_open, [])
  /\ tick 99 (with_buffer [sentinel] sample_replaying)
     = (Ok tt, with_buffer [sentinel] sample_replaying, []).
Proof.
  pose proof scheduler_replays_in_order
    as (_ & _ & Hfront & Hall & Hnone & Hbehind).
  split; [|split; [|split]].
  - apply (Hfront 100 100 [] (with_buffer [sentinel] sample_replaying));
      try reflexivity.
    apply Qle_bool_iff. reflexivity.
  - apply (Hall (1006 # 10) 100 [("hello", 3 # 10); ("world", 6 # 10)]
             sample_replaying); try reflexivity.
    + apply Qle_bool_iff. reflexivity.
    + repeat constructor; apply Qle_bool_iff; reflexivity.
    + repeat constructor.
  - apply Hnone. reflexivity.
  - apply (Hbehind 99 100 [] (with_buffer [sentinel] sample_replaying));
      reflexivity.
Defined.

(** The scenario of the specification, tick by tick: at 0.2 s nothing is
    due, at 0.3 s ["hello"] is pushed, at 0.6 s ["world"] and the marker. *)
Example replay_scenario :
  log_of (tick_loop [1002 # 10; 1003 # 10; 1004 # 10; 1006 # 10; 1007 # 10]
            sample_replaying)
  = [EvPushFrame (TextFrame (JStr "hello"));
     EvPushFrame (TextFrame (JStr "world"));
     EvPushFrame LLMFullResponseEndFrame]
  /\ log_of (tick (1002 # 10) sample_replaying) = []
  /\ log_of (tick (1003 # 10) sample_replaying)
     = [EvPushFrame (TextFrame (JStr "hello"))].
Proof. repeat split; reflexivity. Qed.

(** ** Disconnection *)

Lemma tick_loop_skips (nows : list Q) (s : State) :
  no_timestamp (context_id_start_timestamp s) = true ->
  tick_loop nows s = (Ok tt, s, []).
Proof.
  intros H. induction nows as [|now rest IH]; [reflexivity|].
  simpl. rewrite (bind_ok _ _ _ _ _ _ (tick_skips now s H)), IH. reflexivity.
Qed.

(** With no context and no start timestamp, ticks and tagged messages in any
    interleaving leave the service as it is and push nothing. *)
Lemma run_idle cfg b64decode (turns : list Turn) (s : State) :
  context_id s = None ->
  context_id_start_timestamp s = None ->
  Forall tagged turns ->
  run cfg b64decode turns s = (Ok tt, s, []).
Proof.
  intros Hc Ht Hall. induction Hall as [|t rest Hb _ IH]; [reflexivity|].
  simpl run.
  assert (Hstep : step cfg b64decode t s = (Ok tt, s, [])).
  { destruct t as [now|now message| | | |]; simpl in *; try contradiction.
    - apply tick_skips. now rewrite Ht.
    - destruct Hb as (msg & c & -> & Hget & Hnull).
      apply (receive_message_skips cfg b64decode now msg c s Hget).
      rewrite Hc. now apply ne_context_none. }
  rewrite (bind_ok _ _ _ _ _ _ Hstep), IH. reflexivity.
Qed.

Lemma handle_interruption_runs (s : State) :
  handle_interruption s
  = (Ok tt,
     with_buffer [] (with_start_timestamp None (with_context_id None s)),
     [EvSuperHandleInterruption; EvStopAllMetrics;
      EvPushFrame LLMFullResponseEndFrame]).
Proof. reflexivity. Qed.

(** The effects of [disconnect]: the cancellations first, then the close of
    the socket if there is one, then either the metrics stop or, when the
    close raised, the logged exception. *)
Lemma disconnect_log (ok : bool) (s : State) :
  log_of (disconnect ok s)
  = cancellations s
    ++ match websocket s with
       | Some ws =>
           EvClose ws ok
             :: (if ok then [EvStopAllMetrics]
                 else [EvLogException TransportError])
       | None => [EvStopAllMetrics]
       end.
Proof.
  destruct s as [[ws|] c t buf [rt|] [cat|] w]; destruct ok; reflexivity.
Qed.

(** When the socket closes cleanly, or there is none, [disconnect] leaves
    the state [__init__] leaves. *)
Lemma disconnect_resets (ok : bool) (s : State) :
  websocket s = None \/ ok = true ->
  disconnect ok s
  = (Ok tt, init, log_of (disconnect ok s)).
Proof.
  destruct s as [[ws|] c t buf [rt|] [cat|] w]; destruct ok; simpl;
    intros [H|H]; try discriminate; reflexivity.
Qed.

(** When the close raises, the handles are dropped and nothing else is
    reset. *)
Lemma disconnect_close_raises (ws : WebSocket) (s : State) :
  websocket s = Some ws ->
  state_of (disconnect false s)
  = with_websocket None
      (with_receive_task None (with_context_appending_task None s)).
Proof.
  destruct s as [[ws'|] c t buf [rt|] [cat|] w]; simpl;
    intros H; try discriminate; reflexivity.
Qed.




(** C6 fails on the code when the close of the socket raises: the
    exception leaves the [try] block before the four resetting assignments,
    so the context id, the start timestamp, the buffer and the TTFB flag
    survive the call; a second call then does reset them, so the first call
    was not idempotent either. *)
Theorem disconnect_keeps_state_when_close_raises :
  disconnect false sample_speaking
  = (Ok tt,
     with_websocket None
       (with_receive_task None
          (with_context_appending_task None sample_speaking)),
     [EvCancelTask ContextAppendingTaskHandler;
      EvCancelTask ReceiveTaskHandler;
      EvClose (Socket (connect_uri sample_cfg)) false;
      EvLogException TransportError])
  /\ context_id (state_of (disconnect false sample_speaking)) = Some "ctx-1"
  /\ context_id_start_timestamp (state_of (disconnect false sample_speaking))
     = Some 100
  /\ timestamped_words_buffer (state_of (disconnect false sample_speaking))
     = [to_entry ("hello", 3 # 10); to_entry ("world", 6 # 10)]
  /\ waiting_for_ttfb (state_of (disconnect false sample_open)) = true
  /\ state_of (disconnect false (state_of (disconnect false sample_speaking)))
     = init
  /\ state_of (disconnect false sample_speaking) <> init.
Proof. repeat split. discriminate. Qed.

(** ** The outbound request encoder *)

Lemma connect_keeps_context cfg (ok : bool) (s : State) :
  context_id (state_of (connect cfg ok s)) = context_id s
  /\ waiting_for_ttfb (state_of (connect cfg ok s)) = waiting_for_ttfb s
  /\ result_of (connect cfg ok s) = Ok tt
  /\ is_some (websocket (state_of (connect cfg ok s))) = ok.
Proof. destruct ok; repeat split. Qed.

(** What [run_tts] does, case by case: [r0] is the connection step, [c] the
    context id the request carries, [s2] the state in which it is sent. *)
Lemma run_tts_runs cfg (env : TtsEnv) (text : string) (s : State) :
  let r0 := if is_some (websocket s) then (Ok tt, s, [])
            else connect cfg (connect_ok env) s in
  let c := if no_context (context_id s) then Some (uuid4 env)
           else context_id s in
  let s2 := with_context_id c (with_waiting_for_ttfb true (state_of r0)) in
  let request := build_request cfg text c in
  let opening :=
    EvLogDebug ("Generating TTS: [" ++ text ++ "]")%string
      :: log_of r0
      ++ (if waiting_for_ttfb s then [] else [EvStartTtfbMetrics]) in
  let recover (e : exn) :=
    (Ok [],
     state_of (connect cfg (reconnect_ok env)
                 (state_of (disconnect (close_ok env) s2))),
     opening
       ++ match websocket s2 with
          | Some ws => [EvSend ws request false]
          | None => []
          end
       ++ [EvLogException e]
       ++ log_of (disconnect (close_ok env) s2)
       ++ log_of (connect cfg (reconnect_ok env)
                    (state_of (disconnect (close_ok env) s2)))) in
  run_tts cfg env text s
  = match websocket s2 with
    | Some ws =>
        if send_ok env
        then (Ok [None], s2, opening ++ [EvSend ws request true])
        else recover TransportError
    | None => recover AttributeError
    end.
Proof.
  destruct s as [[ws|] [[|a c]|] t buf [rt|] [cat|] [|]];
    destruct env as [[|] u [|] [|] [|]];
    reflexivity.
Qed.

(** C7: [run_tts] never raises. It first connects if there is no socket,
    opens a TTFB window if none is open, and takes the string of
    [uuid.uuid4()] as context id if none is open. With a socket in hand it
    sends one request: the text with one space appended, [continue] and
    [add_timestamps] set, the current context id. When the send succeeds
    it yields [None] once; when it fails, or no socket could be obtained,
    the exception is logged, [disconnect] and [connect] run, and the
    generator ends without a value. *)
Theorem run_tts_sends_or_reconnects cfg (env : TtsEnv) (text : string)
    (s : State) :
  let r0 := if is_some (websocket s) then (Ok tt, s, [])
            else connect cfg (connect_ok env) s in
  let c := if no_context (context_id s) then Some (uuid4 env)
           else context_id s in
  let s2 := with_context_id c (with_waiting_for_ttfb true (state_of r0)) in
  let request := build_request cfg text c in
  let opening :=
    EvLogDebug ("Generating TTS: [" ++ text ++ "]")%string
      :: log_of r0
      ++ (if waiting_for_ttfb s then [] else [EvStartTtfbMetrics]) in
  let recover (e : exn) :=
    (Ok [],
     state_of (connect cfg (reconnect_ok env)
                 (state_of (disconnect (close_ok env) s2))),
     opening
       ++ match websocket s2 with
          | Some ws => [EvSend ws request false]
          | None => []
          end
       ++ [EvLogException e]
       ++ log_of (disconnect (close_ok env) s2)
       ++ log_of (connect cfg (reconnect_ok env)
                    (state_of (disconnect (close_ok env) s2)))) in
  (exists yielded, result_of (run_tts cfg env text s) = Ok yielded)
  /\ (is_some (websocket s) = false ->
      exists rest,
        log_of r0 = EvConnect (connect_uri cfg) (connect_ok env) :: rest)
  /\ waiting_for_ttfb s2 = true
  /\ transcript request = (text ++ " ")%string
  /\ continue request = true
  /\ add_timestamps request = true
  /\ request_context_id request = context_id s2
  /\ run_tts cfg env text s
     = match websocket s2 with
       | Some ws =>
           if send_ok env
           then (Ok [None], s2, opening ++ [EvSend ws request true])
           else recover TransportError
       | None => recover AttributeError
       end.
Proof.
  intros r0 c s2 request opening recover.
  pose proof (run_tts_runs cfg env text s) as Hrun. cbv zeta in Hrun.
  fold r0 c s2 request opening recover in Hrun |- *.
  split.
  { rewrite Hrun. destruct (websocket s2); [destruct (send_ok env)|];
      eexists; reflexivity. }
  split.
  { intros Hws. subst r0. rewrite Hws.
    destruct (connect_ok env); eexists; reflexivity. }
  repeat (split; [reflexivity|]). exact Hrun.
Qed.

Lemma run_tts_sends_or_reconnects_witness :
  exists rest,
    log_of (connect sample_cfg true init)
    = EvConnect (connect_uri sample_cfg) true :: rest.
Proof.
  pose proof (run_tts_sends_or_reconnects sample_cfg (env_ok "ctx-1")
                "Hello world." init) as (_ & Hconn & _).
  apply Hconn. reflexivity.
Defined.

Example run_tts_from_init :
  run_tts sample_cfg (env_ok "ctx-1") "Hello world." init
  = (Ok [None], sample_open,
     [EvLogDebug "Generating TTS: [Hello world.]";
      EvConnect (connect_uri sample_cfg) true;
      EvCreateTask ReceiveTaskHandler;
      EvCreateTask ContextAppendingTaskHandler;
      EvStartTtfbMetrics;
      EvSend (Socket (connect_uri sample_cfg))
        (build_request sample_cfg "Hello world." (Some "ctx-1")) true]).
Proof. reflexivity. Qed.

(** ** Interruption *)

Lemma replay_keeps_context (elapsed : Q) (buffer : list Entry) (s : State) :
  context_id (state_of (replay elapsed buffer s)) = context_id s.
Proof.
  revert s. induction buffer as [|e rest IH]; intros s; [reflexivity|].
  destruct (le_num (snd e) elapsed) as [[|]|x] eqn:Hdue.
  - rewrite (replay_due _ _ _ _ Hdue). unfold state_of at 1. simpl.
    now rewrite IH.
  - now rewrite (replay_not_due _ _ _ _ Hdue).
  - now rewrite (replay_raises _ _ _ _ _ Hdue).
Qed.

Lemma tick_keeps_context (now : Q) (s : State) :
  context_id (state_of (tick now s)) = context_id s.
Proof.
  destruct (no_timestamp (context_id_start_timestamp s)) eqn:Hno.
  - now rewrite (tick_skips now s Hno).
  - destruct (context_id_start_timestamp s) as [start|] eqn:Hs;
      [|discriminate].
    rewrite (tick_replays now start s Hs Hno). apply replay_keeps_context.
Qed.

Lemma receive_message_context cfg b64decode (now : Q) (message : Message)
    (s : State) :
  context_id (state_of (receive_message cfg b64decode now message s))
  = context_id s
  \/ context_id (state_of (receive_message cfg b64decode now message s))
     = None.
Proof.
  destruct message as [msg|]; [|now left].
  unfold receive_message, bind, json_loads, get, ret, lift, when, modify, emit,
    raise, zip, push_frame, base64_b64decode, state_of.
  crack; auto.
Qed.

Lemma disconnect_context (ok : bool) (s : State) :
  result_of (disconnect ok s) = Ok tt
  /\ (context_id (state_of (disconnect ok s)) = None
      \/ context_id (state_of (disconnect ok s)) = context_id s).
Proof.
  destruct s as [[ws|] c t buf [rt|] [cat|] w]; destruct ok; simpl; auto.
Qed.


Lemma ne_context_other (old : string) (c : option string) :
  c <> Some old -> ne_context (JStr old) c = true.
Proof.
  destruct c as [c|]; simpl; [|reflexivity].
  intros H. destruct (String.eqb_spec old c); [subst; congruence|reflexivity].
Qed.

Lemma of_context_skips cfg b64decode (old : string) (t : Turn) (s : State) :
  of_context old t = true ->
  context_id s <> Some old ->
  step cfg b64decode t s = (Ok tt, s, []).
Proof.
  destruct t as [now|now [msg|]|env text| | |]; simpl; try discriminate.
  destruct (getitem msg "context_id") as [[| | |c| |]|e] eqn:Hget;
    try discriminate.
  intros Heq Hs. apply String.eqb_eq in Heq. subst c.
  apply (receive_message_skips cfg b64decode now msg (JStr old) s Hget).
  now apply ne_context_other.
Qed.

Lemma run_tts_keeps_other_context cfg (env : TtsEnv) (text old : string)
    (s : State) :
  context_id s <> Some old ->
  uuid4 env <> old ->
  context_id (state_of (run_tts cfg env text s)) <> Some old.
Proof.
  intros Hs Hu.
  pose proof (run_tts_runs cfg env text s) as Hrun. cbv zeta in Hrun.
  rewrite Hrun. clear Hrun.
  set (c := if no_context (context_id s) then Some (uuid4 env)
            else context_id s).
  assert (Hc : c <> Some old).
  { subst c. destruct (no_context (context_id s)); congruence. }
  set (s2 := with_context_id c _).
  assert (Hrec : context_id
                   (state_of (connect cfg (reconnect_ok env)
                                (state_of (disconnect (close_ok env) s2))))
                 <> Some old).
  { rewrite (proj1 (connect_keeps_context cfg _ _)).
    destruct (disconnect_context (close_ok env) s2) as [_ [H|H]];
      rewrite H; [discriminate | exact Hc]. }
  destruct (websocket s2); [destruct (send_ok env)|]; assumption.
Qed.

Lemma step_keeps_other_context cfg b64decode (old : string) (t : Turn)
    (s : State) :
  context_id s <> Some old ->
  fresh_for old t ->
  context_id (state_of (step cfg b64decode t s)) <> Some old.
Proof.
  intros Hs Hfresh.
  destruct t as [now|now message|env text| |ok|ok]; simpl step.
  - now rewrite tick_keeps_context.
  - destruct (receive_message_context cfg b64decode now message s) as [H|H];
      rewrite H; [exact Hs | discriminate].
  - pose proof (run_tts_keeps_other_context cfg env text old s Hs Hfresh) as H.
    unfold bind, ret.
    destruct (run_tts cfg env text s) as [[[y|e] s1] log1]; exact H.
  - discriminate.
  - destruct (disconnect_context ok s) as [_ [H|H]];
      rewrite H; [discriminate | exact Hs].
  - now rewrite (proj1 (connect_keeps_context cfg ok s)).
Qed.

(** Messages of a context that is no longer tracked, and whose id is not
    handed out again, can be struck from a run: the rest of the run goes
    the same way, with the same effects and the same final state. *)
Lemma untracked_context_is_inert cfg b64decode (old : string)
    (turns : list Turn) (s : State) :
  context_id s <> Some old ->
  Forall (fresh_for old) turns ->
  run cfg b64decode turns s
  = run cfg b64decode (filter (fun t => negb (of_context old t)) turns) s.
Proof.
  intros Hs Hall. revert s Hs.
  induction Hall as [|t rest Hfresh _ IH]; intros s Hs; [reflexivity|].
  simpl filter. destruct (of_context old t) eqn:Hof; simpl negb; cbv iota.
  - simpl run.
    rewrite (bind_ok _ _ _ _ _ _ (of_context_skips cfg b64decode old t s Hof Hs)).
    rewrite <- (IH s Hs).
    destruct (run cfg b64decode rest s) as [[r s1] log1]. reflexivity.
  - simpl run.
    pose proof (step_keeps_other_context cfg b64decode old t s Hs Hfresh) as Hstep.
    unfold bind.
    destruct (step cfg b64decode t s) as [[[[]|e] s1] log1]; [|reflexivity].
    now rewrite (IH s1 Hstep).
Qed.

(** C4: from any state the interruption handler clears the context id, the
    start timestamp and the buffer, leaves the other fields alone, stops
    the metrics and pushes exactly one marker itself. Afterwards, as long
    as only ticks and messages tagged with a (non-null) context id follow,
    nothing more is pushed; and in any later run in which [uuid.uuid4()]
    does not return the id [old] again, the messages of context [old] can
    be struck out without changing any effect or the final state, so no
    frame is ever pushed on their account. *)
Theorem interruption_clears_and_marks cfg b64decode (s : State)
    (old : string) (idle later : list Turn) :
  Forall tagged idle ->
  Forall (fresh_for old) later ->
  let r := handle_interruption s in
  result_of r = Ok tt
  /\ context_id (state_of r) = None
  /\ context_id_start_timestamp (state_of r) = None
  /\ timestamped_words_buffer (state_of r) = []
  /\ websocket (state_of r) = websocket s
  /\ receive_task (state_of r) = receive_task s
  /\ context_appending_task (state_of r) = context_appending_task s
  /\ waiting_for_ttfb (state_of r) = waiting_for_ttfb s
  /\ log_of r = [EvSuperHandleInterruption; EvStopAllMetrics;
                 EvPushFrame LLMFullResponseEndFrame]
  /\ markers (log_of r) = 1%nat
  /\ run cfg b64decode idle (state_of r) = (Ok tt, state_of r, [])
  /\ run cfg b64decode later (state_of r)
     = run cfg b64decode
         (filter (fun t => negb (of_context old t)) later) (state_of r).
Proof.
  intros Hidle Hlater r. subst r. rewrite handle_interruption_runs.
  unfold result_of, state_of, log_of. simpl.
  repeat split.
  - now apply run_idle.
  - apply untracked_context_is_inert; [discriminate | exact Hlater].
Qed.

Lemma interruption_clears_and_marks_witness :
  let r := handle_interruption sample_speaking in
  let late :=
    Receive (1004 # 10)
      (Some (timestamps_message (JStr "ctx-1") [JStr "again"] [JNum (9 # 10)])) in
  let idle := [Tick (1003 # 10); late; Tick (1010 # 10)] in
  let next :=
    [RunTts (env_ok "ctx-2") "Bye.";
     Receive 200 (Some (chunk_message (JStr "ctx-2") "eW8="));
     Tick (2001 # 10)] in
  timestamped_words_buffer (state_of r) = []
  /\ markers (log_of r) = 1%nat
  /\ run sample_cfg sample_b64decode idle (state_of r)
     = (Ok tt, state_of r, [])
  /\ run sample_cfg sample_b64decode (late :: next ++ [late]) (state_of r)
     = run sample_cfg sample_b64decode next (state_of r).
Proof.
  intros r late idle next.
  assert (Hidle : Forall tagged idle).
  { repeat constructor; simpl;
      eexists; eexists; (split; [reflexivity|split; [reflexivity|discriminate]]). }
  assert (Hlater : Forall (fresh_for "ctx-1") (late :: next ++ [late])).
  { repeat constructor. simpl. discriminate. }
  pose proof (interruption_clears_and_marks sample_cfg sample_b64decode
                sample_speaking "ctx-1" idle (late :: next ++ [late])
                Hidle Hlater) as H.
  simpl in H. repeat split; apply H.
Defined.

(** ** Successive responses *)

(** A chunk of the current context leaves a start timestamp that is
    already recorded as it is. *)
Lemma chunk_keeps_recorded_start cfg b64decode (now start : Q) (msg ty : json)
    (c : string) (s : State) :
  context_id s = Some c ->
  context_id_start_timestamp s = Some start ->
  Qeq_bool start 0 = false ->
  getitem msg "context_id" = Ok (JStr c) ->
  getitem msg "type" = Ok ty ->
  eq_str ty "chunk" = true ->
  context_id_start_timestamp
    (state_of (receive_message cfg b64decode now (Some msg) s))
  = Some start.
Proof.
  intros Hc Hs H0 Hget Hty Hchunk.
  apply eq_str_true in Hchunk. subst ty.
  unfold receive_message, bind, json_loads, get, ret.
  rewrite (getitem_truthy _ _ _ Hget). simpl.
  rewrite Hget. simpl. rewrite Hc, String.eqb_refl. simpl.
  rewrite Hty. simpl. rewrite Hs. simpl. rewrite H0. simpl.
  destruct (waiting_for_ttfb s); simpl;
    destruct (getitem msg "data") as [d|e]; simpl; try exact Hs;
    unfold base64_b64decode;
    destruct d; simpl; try exact Hs;
    destruct (b64decode s0); simpl; exact Hs.
Qed.

(** C2 fails on the code for a second context opened after a first one
    completed normally: ["done"] keeps the start timestamp and the first
    chunk of the next context writes it only when it is empty. The first
    response got its start at clock time 100; the first chunk of the second
    comes at 200, and the start timestamp is still 100. The word of the
    second response, due 0.5 s into its audio, is pushed by the tick at
    200.2, when 0.2 s of that audio have elapsed. *)
Theorem second_context_keeps_first_start :
  let s := state_of (second_response init) in
  result_of (second_response init) = Ok tt
  /\ context_id s = Some "ctx-2"
  /\ context_id_start_timestamp (state_of (first_response init)) = Some 100
  /\ context_id_start_timestamp s = Some 100
  /\ timestamped_words_buffer s = [to_entry ("bye", 5 # 10)]
  /\ log_of (tick (2002 # 10) s) = [EvPushFrame (TextFrame (JStr "bye"))]
  /\ Qle_bool (5 # 10) ((2002 # 10) - 200) = false.
Proof. repeat split. Qed.

(** ** The end-of-response marker *)








(** ** Further properties of the methods *)

(** *** Disconnection *)

Lemma disconnect_drops_handles (ok : bool) (s : State) :
  result_of (disconnect ok s) = Ok tt
  /\ websocket (state_of (disconnect ok s)) = None
  /\ receive_task (state_of (disconnect ok s)) = None
  /\ context_appending_task (state_of (disconnect ok s)) = None.
Proof.
  destruct s as [[ws|] c t buf [rt|] [cat|] w]; destruct ok; repeat split.
Qed.

(** X1: [disconnect] returns normally whatever the close does, and leaves
    no socket and no task handle. When the close succeeds, or there was no
    socket, it leaves the state of [__init__]; calling it again, whatever
    the world does, leaves that state and only stops the metrics. *)
Theorem disconnect_is_a_clean_reset (ok again : bool) (s : State) :
  (result_of (disconnect ok s) = Ok tt
   /\ websocket (state_of (disconnect ok s)) = None
   /\ receive_task (state_of (disconnect ok s)) = None
   /\ context_appending_task (state_of (disconnect ok s)) = None)
  /\ (websocket s = None \/ ok = true ->
      state_of (disconnect ok s) = init
      /\ disconnect again (state_of (disconnect ok s))
         = (Ok tt, init, [EvStopAllMetrics])).
Proof.
  split; [apply disconnect_drops_handles|].
  intros H. rewrite (disconnect_resets ok s H).
  unfold state_of. simpl. split; [reflexivity|].
  destruct again; reflexivity.
Qed.

Lemma disconnect_is_a_clean_reset_witness :
  state_of (disconnect true sample_speaking) = init
  /\ disconnect false (state_of (disconnect true sample_speaking))
     = (Ok tt, init, [EvStopAllMetrics]).
Proof.
  apply (proj2 (disconnect_is_a_clean_reset true false sample_speaking)).
  right. reflexivity.
Defined.

(** *** The inbound demultiplexer *)

Lemma receive_message_frame cfg b64decode (now : Q) (message : Message)
    (s : State) :
  let r := receive_message cfg b64decode now message s in
  websocket (state_of r) = websocket s
  /\ receive_task (state_of r) = receive_task s
  /\ context_appending_task (state_of r) = context_appending_task s
  /\ (exists added,
        timestamped_words_buffer (state_of r)
        = timestamped_words_buffer s ++ added)
  /\ (frames (log_of r) = []
      \/ exists audio,
           frames (log_of r)
           = [AudioRawFrame audio (sample_rate (output_format cfg)) 1]).
Proof.
  destruct message as [msg|].
  2: { repeat split; try (now left). exists []. now rewrite app_nil_r. }
  unfold receive_message, zip, base64_b64decode, push_frame, when.
  unfold bind, json_loads, get, ret, lift, modify, emit, raise, state_of,
    log_of.
  crack; cbv [ret raise lift]; crack; simpl;
    (split; [reflexivity|]; split; [reflexivity|]; split; [reflexivity|];
     split;
     [ first [ exists []; now rewrite app_nil_r
             | eexists; reflexivity
             | eexists; rewrite <- app_assoc; reflexivity ]
     | first [ now left | right; eexists; reflexivity ] ]).
Qed.

(** X7: whatever the message and the state, handling one message never
    touches the socket or the task handles, only ever appends to the
    timeline buffer, and pushes either nothing or one audio frame with the
    configured sample rate and one channel. *)
Theorem demultiplexer_only_appends cfg b64decode (now : Q) (message : Message)
    (s : State) :
  let r := receive_message cfg b64decode now message s in
  websocket (state_of r) = websocket s
  /\ receive_task (state_of r) = receive_task s
  /\ context_appending_task (state_of r) = context_appending_task s
  /\ (exists added,
        timestamped_words_buffer (state_of r)
        = timestamped_words_buffer s ++ added)
  /\ (frames (log_of r) = []
      \/ exists audio,
           frames (log_of r)
           = [AudioRawFrame audio (sample_rate (output_format cfg)) 1]).
Proof. apply receive_message_frame. Qed.

(** The filter at the head of the loop body lets a message of the current
    context through; what is left is the dispatch on its type. *)
Ltac enter_current Hc Hget :=
  unfold receive_message, bind, json_loads, get, ret;
  rewrite (getitem_truthy _ _ _ Hget); simpl;
  rewrite Hget; simpl; rewrite Hc, String.eqb_refl; simpl.

(** X3: a ["timestamps"] message of the current context appends the pairs
    of [zip(words, end)] behind what is queued, in order and cut to the
    shorter of the two lists, without checking what the values are; it
    pushes nothing and changes nothing else. *)
Theorem timestamps_are_appended cfg b64decode (now : Q)
    (msg ty wt wordsj endsj : json) (words ends : list json) (c : string)
    (s : State) :
  context_id s = Some c ->
  getitem msg "context_id" = Ok (JStr c) ->
  getitem msg "type" = Ok ty ->
  eq_str ty "timestamps" = true ->
  getitem msg "word_timestamps" = Ok wt ->
  getitem wt "words" = Ok wordsj ->
  getitem wt "end" = Ok endsj ->
  iter wordsj = Ok words ->
  iter endsj = Ok ends ->
  receive_message cfg b64decode now (Some msg) s
  = (Ok tt,
     with_buffer (timestamped_words_buffer s ++ combine words ends) s,
     [])
  /\ List.length (combine words ends)
     = Nat.min (List.length words) (List.length ends).
Proof.
  intros Hc Hget Hty Hts Hwt Hw He Hiw Hie.
  split; [|apply length_combine].
  apply eq_str_true in Hts. subst ty.
  enter_current Hc Hget.
  rewrite Hty. simpl. rewrite Hwt. simpl. rewrite Hw. simpl.
  rewrite He. simpl. unfold zip, bind, lift, ret. rewrite Hiw, Hie.
  reflexivity.
Qed.

Lemma timestamps_are_appended_witness :
  receive_message sample_cfg sample_b64decode (1001 # 10)
    (Some (timestamps_message (JStr "ctx-1")
             [JStr "again"; JStr "lost"] [JNum (9 # 10)]))
    sample_speaking
  = (Ok tt,
     with_buffer
       [to_entry ("hello", 3 # 10); to_entry ("world", 6 # 10);
        to_entry ("again", 9 # 10)]
       sample_speaking,
     [])
  /\ List.length (combine [JStr "again"; JStr "lost"] [JNum (9 # 10)])
     = Nat.min 2 1.
Proof.
  apply (timestamps_are_appended sample_cfg sample_b64decode (1001 # 10)
           (timestamps_message (JStr "ctx-1")
              [JStr "again"; JStr "lost"] [JNum (9 # 10)])
           (JStr "timestamps")
           (JObj [("words", JArr [JStr "again"; JStr "lost"]);
                  ("end", JArr [JNum (9 # 10)])])
           (JArr [JStr "again"; JStr "lost"]) (JArr [JNum (9 # 10)])
           [JStr "again"; JStr "lost"] [JNum (9 # 10)] "ctx-1"
           sample_speaking); reflexivity.
Defined.

(** The state a ["chunk"] of the current context leaves: the start
    timestamp is written when there was none, the TTFB flag is cleared. *)
Lemma chunk_state_eq (now : Q) (s : State) :
  (if waiting_for_ttfb s
   then with_waiting_for_ttfb false
   else fun s' => s')
    ((if no_timestamp (context_id_start_timestamp s)
      then with_start_timestamp (Some now)
      else fun s' => s') s)
  = with_waiting_for_ttfb false
      (with_start_timestamp
         (if no_timestamp (context_id_start_timestamp s)
          then Some now else context_id_start_timestamp s) s).
Proof.
  destruct s as [ws c t buf rt cat [|]]; simpl;
    destruct (no_timestamp t); reflexivity.
Qed.

(** A ["chunk"] of the current context up to the read of its data: the
    start timestamp and the TTFB window are settled first. *)
Lemma receive_chunk_runs cfg b64decode (now : Q) (msg ty : json) (c : string)
    (s : State) :
  context_id s = Some c ->
  getitem msg "context_id" = Ok (JStr c) ->
  getitem msg "type" = Ok ty ->
  eq_str ty "chunk" = true ->
  let s1 :=
    with_waiting_for_ttfb false
      (with_start_timestamp
         (if no_timestamp (context_id_start_timestamp s)
          then Some now else context_id_start_timestamp s) s) in
  let stop := if waiting_for_ttfb s then [EvStopTtfbMetrics] else [] in
  receive_message cfg b64decode now (Some msg) s
  = match getitem msg "data" with
    | Ok (JStr d) =>
        match b64decode d with
        | Some audio =>
            (Ok tt, s1,
             stop ++ [EvPushFrame
                        (AudioRawFrame audio
                           (sample_rate (output_format cfg)) 1)])
        | None => (Raise Base64Error, s1, stop)
        end
    | Ok _ => (Raise TypeError, s1, stop)
    | Raise e => (Raise e, s1, stop)
    end.
Proof.
  intros Hc Hget Hty Hchunk s1 stop. subst s1 stop.
  rewrite <- chunk_state_eq.
  apply eq_str_true in Hchunk. subst ty.
  enter_current Hc Hget.
  rewrite Hty. simpl.
  destruct s as [ws c' t buf rt cat [|]]; simpl;
    destruct (no_timestamp t); simpl;
    destruct (getitem msg "data") as [[| | |d| |]|e]; simpl; try reflexivity;
    unfold base64_b64decode; destruct (b64decode d); reflexivity.
Qed.

(** X4: a ["chunk"] of the current context whose data decodes pushes
    exactly one audio frame, with the decoded bytes, the configured sample
    rate and one channel; before that it records the clock as start
    timestamp if none is recorded (and leaves a recorded one alone) and,
    if a TTFB window is open, stops it and clears the flag. The context id
    and the buffer are untouched. *)
Theorem chunk_pushes_audio cfg b64decode (now : Q) (msg ty : json)
    (c d audio : string) (s : State) :
  context_id s = Some c ->
  getitem msg "context_id" = Ok (JStr c) ->
  getitem msg "type" = Ok ty ->
  eq_str ty "chunk" = true ->
  getitem msg "data" = Ok (JStr d) ->
  b64decode d = Some audio ->
  receive_message cfg b64decode now (Some msg) s
  = (Ok tt,
     with_waiting_for_ttfb false
       (with_start_timestamp
          (if no_timestamp (context_id_start_timestamp s)
           then Some now else context_id_start_timestamp s) s),
     (if waiting_for_ttfb s then [EvStopTtfbMetrics] else [])
       ++ [EvPushFrame
             (AudioRawFrame audio (sample_rate (output_format cfg)) 1)]).
Proof.
  intros Hc Hget Hty Hchunk Hdata Hdec.
  pose proof (receive_chunk_runs cfg b64decode now msg ty c s
                Hc Hget Hty Hchunk) as H.
  cbv zeta in H. rewrite H, Hdata, Hdec. reflexivity.
Qed.

Lemma chunk_pushes_audio_witness :
  receive_message sample_cfg sample_b64decode 100
    (Some (chunk_message (JStr "ctx-1") "aGk=")) sample_open
  = (Ok tt,
     with_waiting_for_ttfb false
       (with_start_timestamp (Some 100) sample_open),
     [EvStopTtfbMetrics; EvPushFrame (AudioRawFrame "hi" 16000 1)]).
Proof.
  apply (chunk_pushes_audio sample_cfg sample_b64decode 100
           (chunk_message (JStr "ctx-1") "aGk=") (JStr "chunk")
           "ctx-1" "aGk=" "hi" sample_open); reflexivity.
Defined.

(** X5: a ["chunk"] of the current context whose data is missing, is not a
    string or does not decode raises only after the start timestamp has
    been recorded and the TTFB window closed: no frame is pushed, yet both
    writes stay, and the handler logs the exception and reads no further
    message. *)
Theorem bad_chunk_still_starts_the_clock cfg b64decode (now : Q)
    (msg ty : json) (c : string) (rest : list (Q * Message)) (s : State) :
  context_id s = Some c ->
  getitem msg "context_id" = Ok (JStr c) ->
  getitem msg "type" = Ok ty ->
  eq_str ty "chunk" = true ->
  (forall d audio, getitem msg "data" = Ok (JStr d) ->
                   b64decode d <> Some audio) ->
  exists e,
    receive_task_handler cfg b64decode ((now, Some msg) :: rest) s
    = (Ok tt,
       with_waiting_for_ttfb false
         (with_start_timestamp
            (if no_timestamp (context_id_start_timestamp s)
             then Some now else context_id_start_timestamp s) s),
       (if waiting_for_ttfb s then [EvStopTtfbMetrics] else [])
         ++ [EvLogException e]).
Proof.
  intros Hc Hget Hty Hchunk Hbad.
  pose proof (receive_chunk_runs cfg b64decode now msg ty c s
                Hc Hget Hty Hchunk) as H.
  cbv zeta in H.
  assert (Hraise : exists e,
             receive_message cfg b64decode now (Some msg) s
             = (Raise e,
                with_waiting_for_ttfb false
                  (with_start_timestamp
                     (if no_timestamp (context_id_start_timestamp s)
                      then Some now else context_id_start_timestamp s) s),
                if waiting_for_ttfb s then [EvStopTtfbMetrics] else [])).
  { rewrite H.
    destruct (getitem msg "data") as [[| | |d| |]|e]; try (eexists; reflexivity).
    destruct (b64decode d) as [audio|] eqn:Hdec; [|eexists; reflexivity].
    exfalso. now apply (Hbad d audio). }
  destruct Hraise as [e He]. exists e.
  apply (receive_task_handler_stops cfg b64decode [] rest now (Some msg) e
           s s _ [] _ eq_refl He).
Qed.

Lemma bad_chunk_still_starts_the_clock_witness :
  exists e,
    receive_task_handler sample_cfg sample_b64decode
      [(100, Some (chunk_message (JStr "ctx-1") "aGk"));
       (101, Some (chunk_message (JStr "ctx-1") "aGk="))]
      sample_open
    = (Ok tt,
       with_waiting_for_ttfb false
         (with_start_timestamp (Some 100) sample_open),
       [EvStopTtfbMetrics] ++ [EvLogException e]).
Proof.
  apply (bad_chunk_still_starts_the_clock sample_cfg sample_b64decode 100
           (chunk_message (JStr "ctx-1") "aGk") (JStr "chunk") "ctx-1"
           [(101, Some (chunk_message (JStr "ctx-1") "aGk="))] sample_open);
    try reflexivity.
  intros d audio Hd. injection Hd as <-. discriminate.
Defined.

(** X6: a message of the current context whose type is none of ["done"],
    ["timestamps"] and ["chunk"] (an error report, say) is ignored: it is
    handled without any effect and the loop goes on; when the message has
    no ["type"] at all, reading it raises. *)
Theorem other_types_are_ignored cfg b64decode (now : Q) (msg : json)
    (c : string) (s : State) :
  context_id s = Some c ->
  getitem msg "context_id" = Ok (JStr c) ->
  (forall ty,
      getitem msg "type" = Ok ty ->
      eq_str ty "done" = false ->
      eq_str ty "timestamps" = false ->
      eq_str ty "chunk" = false ->
      receive_message cfg b64decode now (Some msg) s = (Ok tt, s, []))
  /\ (forall e,
        getitem msg "type" = Raise e ->
        receive_message cfg b64decode now (Some msg) s = (Raise e, s, [])).
Proof.
  intros Hc Hget. split.
  - intros ty Hty Hd Ht Hk. enter_current Hc Hget.
    rewrite Hty. simpl. rewrite Hd, Ht, Hk. reflexivity.
  - intros e Hty. enter_current Hc Hget.
    rewrite Hty. reflexivity.
Qed.

Lemma other_types_are_ignored_witness :
  receive_message sample_cfg sample_b64decode 100
    (Some (JObj [("type", JStr "error"); ("context_id", JStr "ctx-1")]))
    sample_open
  = (Ok tt, sample_open, [])
  /\ receive_message sample_cfg sample_b64decode 100
       (Some (JObj [("context_id", JStr "ctx-1")])) sample_open
     = (Raise (KeyError "type"), sample_open, []).
Proof.
  pose proof (other_types_are_ignored sample_cfg sample_b64decode 100) as H.
  split.
  - apply (proj1 (H (JObj [("type", JStr "error");
                           ("context_id", JStr "ctx-1")])
                    "ctx-1" sample_open eq_refl eq_refl) (JStr "error"));
      reflexivity.
  - apply (proj2 (H (JObj [("context_id", JStr "ctx-1")])
                    "ctx-1" sample_open eq_refl eq_refl)); reflexivity.
Defined.

(** *** The timeline replay scheduler *)

Lemma with_buffer_of_same (s : State) :
  with_buffer (timestamped_words_buffer s) s = s.
Proof. destruct s; reflexivity. Qed.

Lemma replay_only_pops (elapsed : Q) (buffer : list Entry) (s : State) :
  timestamped_words_buffer s = buffer ->
  state_of (replay elapsed buffer s)
  = with_buffer (timestamped_words_buffer (state_of (replay elapsed buffer s)))
      s.
Proof.
  revert s. induction buffer as [|e rest IH]; intros s Hs.
  - rewrite replay_nil. unfold state_of. simpl.
    now rewrite with_buffer_of_same.
  - destruct (le_num (snd e) elapsed) as [[|]|x] eqn:Hdue.
    + rewrite (replay_due _ _ _ _ Hdue).
      exact (IH (with_buffer rest s) eq_refl).
    + rewrite (replay_not_due _ _ _ _ Hdue). unfold state_of. simpl.
      now rewrite with_buffer_of_same.
    + rewrite (replay_raises _ _ _ _ _ Hdue). unfold state_of. simpl.
      now rewrite with_buffer_of_same.
Qed.

Lemma tick_only_pops (now : Q) (s : State) :
  state_of (tick now s)
  = with_buffer (timestamped_words_buffer (state_of (tick now s))) s.
Proof.
  destruct (no_timestamp (context_id_start_timestamp s)) eqn:Hno.
  - rewrite (tick_skips now s Hno). unfold state_of. simpl.
    now rewrite with_buffer_of_same.
  - destruct (context_id_start_timestamp s) as [start|] eqn:Hs;
      [|discriminate].
    rewrite (tick_replays now start s Hs Hno).
    now apply replay_only_pops.
Qed.

Lemma push_is_text_or_marker (e : Entry) : pushes_text_or_marker (push e).
Proof.
  unfold push, frame_of. destruct (is_sentinel (fst e) (snd e)); exact I.
Qed.

(** X8: a tick changes no field but the buffer, from which it only takes
    entries off the front, and every effect it has is the push of a text
    frame or of the marker: the scheduler never pushes audio and never
    touches the socket, the context, the clock or the metrics. *)
Theorem tick_only_touches_the_buffer (now : Q) (s : State) :
  state_of (tick now s)
  = with_buffer (timestamped_words_buffer (state_of (tick now s))) s
  /\ (exists popped,
        timestamped_words_buffer s
        = popped ++ timestamped_words_buffer (state_of (tick now s)))
  /\ Forall pushes_text_or_marker (log_of (tick now s)).
Proof.
  split; [apply tick_only_pops|].
  destruct (tick_pops_prefix now s) as (popped & Hbuf & Hlog & _).
  split; [now exists popped|].
  rewrite Hlog. clear. induction popped as [|e l IH]; constructor;
    [apply push_is_text_or_marker | exact IH].
Qed.

Lemma tick_loop_app (l1 l2 : list Q) (s : State) :
  tick_loop (l1 ++ l2) s
  = bind (tick_loop l1) (fun _ => tick_loop l2) s.
Proof.
  revert s. induction l1 as [|now l1 IH]; intros s.
  - simpl. now rewrite bind_ret_l.
  - simpl. rewrite bind_assoc. apply bind_ext. intros _ s'. apply IH.
Qed.

(** Entries that are due, followed by one whose end offset is not a
    number: the due ones are popped and pushed, then the comparison
    raises and the offending entry stays at the front. *)
Lemma replay_raises_on_bad_offset (elapsed : Q) (ready : list Entry)
    (word timestamp : json) (more : list Entry) (s : State) :
  timestamped_words_buffer s = ready ++ (word, timestamp) :: more ->
  Forall (fun e => le_num (snd e) elapsed = Ok true) ready ->
  as_number timestamp = None ->
  replay elapsed (ready ++ (word, timestamp) :: more) s
  = (Raise TypeError, with_buffer ((word, timestamp) :: more) s,
     map push ready).
Proof.
  intros Hbuf Hall Hnum. revert s Hbuf.
  induction ready as [|e ready IH]; intros s Hbuf.
  - simpl app in *. rewrite replay_raises with (x := TypeError).
    + now rewrite <- Hbuf, with_buffer_of_same.
    + unfold le_num. simpl. now rewrite Hnum.
  - inversion Hall as [|? ? He Hready]; subst.
    simpl app. rewrite (replay_due _ _ _ _ He).
    rewrite (IH Hready
               (with_buffer (ready ++ (word, timestamp) :: more) s) eq_refl).
    reflexivity.
Qed.

(** X9: when the entries that are due are followed by one whose end
    offset is not a number, the tick pushes the due ones and then raises
    without popping the offending entry; the handler logs the exception
    once and returns, so no later tick runs and everything behind stays
    queued. *)
Theorem bad_offset_stops_the_scheduler (before rest : list Q) (now start : Q)
    (ready : list Entry) (word timestamp : json) (more : list Entry)
    (s s1 : State) (log1 : list Event) :
  tick_loop before s = (Ok tt, s1, log1) ->
  context_id_start_timestamp s1 = Some start ->
  Qeq_bool start 0 = false ->
  timestamped_words_buffer s1 = ready ++ (word, timestamp) :: more ->
  Forall (fun e => le_num (snd e) (now - start) = Ok true) ready ->
  as_number timestamp = None ->
  context_appending_task_handler (before ++ now :: rest) s
  = (Ok tt, with_buffer ((word, timestamp) :: more) s1,
     log1 ++ map push ready ++ [EvLogException TypeError]).
Proof.
  intros Hb Hs H0 Hbuf Hall Hnum.
  assert (Htick : tick now s1
                  = (Raise TypeError,
                     with_buffer ((word, timestamp) :: more) s1,
                     map push ready)).
  { rewrite (tick_replays now start s1 Hs H0), Hbuf.
    now apply replay_raises_on_bad_offset. }
  unfold context_appending_task_handler, try_except.
  rewrite tick_loop_app, (bind_ok _ _ _ _ _ _ Hb).
  simpl tick_loop.
  rewrite (bind_raise _ _ _ _ _ _ Htick).
  unfold result_of, state_of, log_of, logger_exception, emit. simpl.
  now rewrite app_assoc.
Qed.

Lemma bad_offset_stops_the_scheduler_witness :
  let s :=
    with_buffer
      [to_entry ("hello", 3 # 10); (JStr "world", JStr "0.6"); sentinel]
      sample_replaying in
  context_appending_task_handler ([1002 # 10] ++ (1007 # 10) :: [1010 # 10]) s
  = (Ok tt,
     with_buffer [(JStr "world", JStr "0.6"); sentinel] s,
     [] ++ map push [to_entry ("hello", 3 # 10)]
        ++ [EvLogException TypeError]).
Proof.
  intros s.
  apply (bad_offset_stops_the_scheduler [1002 # 10] [1010 # 10] (1007 # 10)
           100 [to_entry ("hello", 3 # 10)] (JStr "world") (JStr "0.6")
           [sentinel] s s []); try reflexivity.
  repeat constructor.
Defined.

(** X10: entries leave the buffer strictly from the front: while the
    entry at the front is not due, no tick pops or pushes anything,
    whatever the offsets of the entries behind it. *)
Theorem front_entry_blocks_the_queue (nows : list Q) (start : Q) (e : Entry)
    (more : list Entry) (s : State) :
  context_id_start_timestamp s = Some start ->
  timestamped_words_buffer s = e :: more ->
  Forall (fun now => le_num (snd e) (now - start) = Ok false) nows ->
  tick_loop nows s = (Ok tt, s, []).
Proof.
  intros Hs Hbuf Hall.
  induction Hall as [|now rest Hnow _ IH]; [reflexivity|].
  assert (Htick : tick now s = (Ok tt, s, [])).
  { destruct (Qeq_bool start 0) eqn:H0.
    - apply tick_skips. rewrite Hs. exact H0.
    - rewrite (tick_replays now start s Hs H0), Hbuf.
      now apply replay_not_due. }
  simpl tick_loop. rewrite (bind_ok _ _ _ _ _ _ Htick), IH. reflexivity.
Qed.

Lemma front_entry_blocks_the_queue_witness :
  let s :=
    with_buffer [to_entry ("late", 5); to_entry ("early", 1 # 10); sentinel]
      sample_replaying in
  tick_loop [101; 102; 104] s = (Ok tt, s, []).
Proof.
  intros s.
  apply (front_entry_blocks_the_queue [101; 102; 104] 100
           (to_entry ("late", 5)) [to_entry ("early", 1 # 10); sentinel] s);
    try reflexivity.
  repeat constructor.
Defined.

(** *** The outbound request encoder over several calls *)

(** A successful [run_tts] on a live socket. *)
Lemma run_tts_on_live_socket cfg (env : TtsEnv) (text : string)
    (ws : WebSocket) (s : State) :
  websocket s = Some ws ->
  send_ok env = true ->
  let c := if no_context (context_id s) then Some (uuid4 env)
           else context_id s in
  run_tts cfg env text s
  = (Ok [None],
     with_context_id c (with_waiting_for_ttfb true s),
     EvLogDebug ("Generating TTS: [" ++ text ++ "]")%string
       :: (if waiting_for_ttfb s then [] else [EvStartTtfbMetrics])
       ++ [EvSend ws (build_request cfg text c) true]).
Proof.
  intros Hws Hsend c. subst c.
  destruct s as [[w|] [[|a c]|] t buf rt cat [|]]; simpl in Hws;
    try discriminate; injection Hws as ->;
    destruct env as [co u so cl ro]; simpl in Hsend; subst so;
    reflexivity.
Qed.

(** X11: two calls of [run_tts] in a row on a live socket, both sends
    succeeding, carry the same context id, the one open before the first
    call or else the one [uuid.uuid4()] gave the first call (a non-empty
    string); the second call draws no new id, opens no TTFB window and
    does not connect. *)
Theorem consecutive_requests_share_the_context cfg (env1 env2 : TtsEnv)
    (text1 text2 : string) (ws : WebSocket) (s : State) :
  websocket s = Some ws ->
  send_ok env1 = true ->
  send_ok env2 = true ->
  uuid4 env1 <> ""%string ->
  let c := if no_context (context_id s) then Some (uuid4 env1)
           else context_id s in
  let r1 := run_tts cfg env1 text1 s in
  let r2 := run_tts cfg env2 text2 (state_of r1) in
  result_of r1 = Ok [None]
  /\ result_of r2 = Ok [None]
  /\ filter is_send (log_of r1)
     = [EvSend ws (build_request cfg text1 c) true]
  /\ log_of r2
     = [EvLogDebug ("Generating TTS: [" ++ text2 ++ "]")%string;
        EvSend ws (build_request cfg text2 c) true]
  /\ context_id (state_of r2) = c.
Proof.
  intros Hws H1 H2 Hu c r1 r2.
  pose proof (run_tts_on_live_socket cfg env1 text1 ws s Hws H1) as E1.
  cbv zeta in E1. fold c in E1.
  assert (Hc : no_context c = false).
  { subst c. destruct (no_context (context_id s)) eqn:Hn; [|exact Hn].
    simpl. now apply String.eqb_neq. }
  pose proof (run_tts_on_live_socket cfg env2 text2 ws
                (with_context_id c (with_waiting_for_ttfb true s))
                Hws H2) as E2.
  cbv zeta in E2. simpl context_id in E2. rewrite Hc in E2.
  simpl in E2.
  subst r2 r1. rewrite E1. unfold state_of at 1 2. simpl fst. simpl snd.
  rewrite E2. unfold result_of, state_of, log_of. simpl.
  repeat split.
  - destruct (waiting_for_ttfb s); reflexivity.
  - rewrite E2. reflexivity.
Qed.

Lemma consecutive_requests_share_the_context_witness :
  let r1 := run_tts sample_cfg (env_ok "ctx-1") "Hello." (connected sample_cfg) in
  let r2 := run_tts sample_cfg (env_ok "ctx-2") "World." (state_of r1) in
  log_of r2
  = [EvLogDebug "Generating TTS: [World.]";
     EvSend (Socket (connect_uri sample_cfg))
       (build_request sample_cfg "World." (Some "ctx-1")) true]
  /\ context_id (state_of r2) = Some "ctx-1".
Proof.
  pose proof (consecutive_requests_share_the_context sample_cfg
                (env_ok "ctx-1") (env_ok "ctx-2") "Hello." "World."
                (Socket (connect_uri sample_cfg)) (connected sample_cfg)
                eq_refl eq_refl eq_refl) as H.
  cbv zeta in H. split; apply H; discriminate.
Defined.

Lemma connect_starts_no_ttfb cfg (ok : bool) (s : State) :
  existsb is_ttfb_start (log_of (connect cfg ok s)) = false.
Proof. destruct ok; reflexivity. Qed.

Lemma disconnect_starts_no_ttfb (ok : bool) (s : State) :
  existsb is_ttfb_start (log_of (disconnect ok s)) = false.
Proof.
  destruct s as [[ws|] c t buf [rt|] [cat|] w]; destruct ok; reflexivity.
Qed.

(** [run_tts] calls [start_ttfb_metrics] exactly when the flag is clear. *)
Lemma run_tts_starts_ttfb cfg (env : TtsEnv) (text : string) (s : State) :
  existsb is_ttfb_start (log_of (run_tts cfg env text s))
  = negb (waiting_for_ttfb s).
Proof.
  pose proof (run_tts_runs cfg env text s) as H. cbv zeta in H.
  rewrite H. clear H.
  set (r0 := if is_some (websocket s) then (Ok tt, s, [])
             else connect cfg (connect_ok env) s).
  assert (H0 : existsb is_ttfb_start (log_of r0) = false).
  { subst r0. destruct (is_some (websocket s));
      [reflexivity | apply connect_starts_no_ttfb]. }
  set (c := if no_context (context_id s) then Some (uuid4 env)
            else context_id s).
  set (s2 := with_context_id c _).
  set (opening := EvLogDebug _ :: _).
  assert (Hopen : existsb is_ttfb_start opening = negb (waiting_for_ttfb s)).
  { subst opening. simpl. rewrite existsb_app, H0.
    destruct (waiting_for_ttfb s); reflexivity. }
  destruct (websocket s2) as [ws|]; [destruct (send_ok env)|];
    change (log_of (?r, ?s', ?l)) with l;
    repeat rewrite existsb_app;
    rewrite Hopen, ?connect_starts_no_ttfb, ?disconnect_starts_no_ttfb;
    simpl; now rewrite ?orb_false_r.
Qed.

(** X12: the interruption handler stops the metrics but leaves the TTFB
    flag as it is. When a request was waiting for its first chunk, the
    next [run_tts] therefore finds the flag set and does not call
    [start_ttfb_metrics], whatever the world does; after a [disconnect]
    that reset the state it does. *)
Theorem interruption_keeps_the_ttfb_flag cfg (env : TtsEnv) (text : string)
    (ok : bool) (s : State) :
  waiting_for_ttfb s = true ->
  waiting_for_ttfb (state_of (handle_interruption s)) = true
  /\ In EvStopAllMetrics (log_of (handle_interruption s))
  /\ existsb is_ttfb_start
       (log_of (run_tts cfg env text (state_of (handle_interruption s))))
     = false
  /\ (websocket s = None \/ ok = true ->
      existsb is_ttfb_start
        (log_of (run_tts cfg env text (state_of (disconnect ok s))))
      = true).
Proof.
  intros Hw. rewrite handle_interruption_runs.
  unfold state_of at 1 2, log_of at 1. simpl fst. simpl snd.
  split; [exact Hw|]. split; [simpl; auto|]. split.
  - rewrite run_tts_starts_ttfb. simpl. now rewrite Hw.
  - intros H. rewrite run_tts_starts_ttfb, (disconnect_resets ok s H).
    reflexivity.
Qed.

Lemma interruption_keeps_the_ttfb_flag_witness :
  existsb is_ttfb_start
    (log_of (run_tts sample_cfg (env_ok "ctx-2") "Bye."
               (state_of (handle_interruption sample_open))))
  = false
  /\ existsb is_ttfb_start
       (log_of (run_tts sample_cfg (env_ok "ctx-2") "Bye."
                  (state_of (disconnect true sample_open))))
     = true.
Proof.
  pose proof (interruption_keeps_the_ttfb_flag sample_cfg (env_ok "ctx-2")
                "Bye." true sample_open eq_refl) as (_ & _ & H1 & H2).
  split; [exact H1 | apply H2; now right].
Defined.

(** X13: when the send fails on a live socket and the close succeeds,
    [run_tts] ends without yielding and without raising, and the context
    it was sending under is abandoned: the state is that of a fresh
    connection, or that of [__init__] when the reconnection failed. The
    next call that can connect and send then yields, under a new context
    id, the one [uuid.uuid4()] gives it, and opens a new TTFB window. *)
Theorem send_failure_abandons_the_context cfg (env env' : TtsEnv)
    (text text' : string) (ws : WebSocket) (s : State) :
  websocket s = Some ws ->
  send_ok env = false ->
  close_ok env = true ->
  connect_ok env' = true ->
  send_ok env' = true ->
  let r := run_tts cfg env text s in
  let r' := run_tts cfg env' text' (state_of r) in
  result_of r = Ok []
  /\ state_of r = (if reconnect_ok env then connected cfg else init)
  /\ result_of r' = Ok [None]
  /\ context_id (state_of r') = Some (uuid4 env')
  /\ filter is_send (log_of r')
     = [EvSend (Socket (connect_uri cfg))
          (build_request cfg text' (Some (uuid4 env'))) true]
  /\ existsb is_ttfb_start (log_of r') = true.
Proof.
  intros Hws Hsend Hclose Hconn' Hsend' r r'.
  assert (Hr : result_of r = Ok []
               /\ state_of r
                  = (if reconnect_ok env then connected cfg else init)).
  { subst r.
    destruct s as [[w|] [[|a c]|] t buf [rt|] [cat|] [|]]; simpl in Hws;
      try discriminate;
      destruct env as [co u so cl [|]]; simpl in Hsend, Hclose; subst so cl;
      split; reflexivity. }
  destruct Hr as [Hres Hstate]. split; [exact Hres|]. split; [exact Hstate|].
  subst r'. rewrite Hstate.
  destruct env' as [co' u' so' cl' ro']; simpl in Hconn', Hsend'; subst co' so'.
  destruct (reconnect_ok env); repeat split.
Qed.

Lemma send_failure_abandons_the_context_witness :
  let failing :=
    {| connect_ok := true; uuid4 := "unused"; send_ok := false;
       close_ok := true; reconnect_ok := true |} in
  let r := run_tts sample_cfg failing "Hello." sample_speaking in
  let r' := run_tts sample_cfg (env_ok "ctx-2") "Hello again." (state_of r) in
  result_of r = Ok []
  /\ state_of r = connected sample_cfg
  /\ result_of r' = Ok [None]
  /\ context_id (state_of r') = Some "ctx-2".
Proof.
  intros failing r r'.
  pose proof (send_failure_abandons_the_context sample_cfg failing
                (env_ok "ctx-2") "Hello." "Hello again."
                (Socket (connect_uri sample_cfg)) sample_speaking
                eq_refl eq_refl eq_refl eq_refl eq_refl) as H.
  cbv zeta in H. repeat split; apply H.
Defined.

(** *** An invariant of the handles *)

Lemma connect_socket_has_tasks cfg (ok : bool) (s : State) :
  socket_has_tasks (state_of (connect cfg ok s)).
Proof. destruct ok; intros H; [split; reflexivity | discriminate]. Qed.

Lemma disconnect_socket_has_tasks (ok : bool) (s : State) :
  socket_has_tasks (state_of (disconnect ok s)).
Proof.
  intros H.
  rewrite (proj1 (proj2 (disconnect_drops_handles ok s))) in H. discriminate.
Qed.

Lemma run_tts_socket_has_tasks cfg (env : TtsEnv) (text : string) (s : State) :
  socket_has_tasks s ->
  socket_has_tasks (state_of (run_tts cfg env text s)).
Proof.
  intros Hs.
  pose proof (run_tts_runs cfg env text s) as H. cbv zeta in H.
  rewrite H. clear H.
  set (r0 := if is_some (websocket s) then (Ok tt, s, [])
             else connect cfg (connect_ok env) s).
  assert (H0 : socket_has_tasks (state_of r0)).
  { subst r0. destruct (is_some (websocket s));
      [exact Hs | apply connect_socket_has_tasks]. }
  set (s2 := with_context_id _ _).
  destruct (websocket s2) as [ws|]; [destruct (send_ok env)|];
    try apply connect_socket_has_tasks.
  exact H0.
Qed.

Lemma step_socket_has_tasks cfg b64decode (t : Turn) (s : State) :
  socket_has_tasks s ->
  socket_has_tasks (state_of (step cfg b64decode t s)).
Proof.
  intros Hs. destruct t as [now|now message|env text| |ok|ok]; simpl step.
  - rewrite tick_only_pops. exact Hs.
  - destruct (receive_message_frame cfg b64decode now message s)
      as (Hw & Hr & Hc & _).
    unfold socket_has_tasks. rewrite Hw, Hr, Hc. exact Hs.
  - pose proof (run_tts_socket_has_tasks cfg env text s Hs) as H.
    unfold bind, ret.
    destruct (run_tts cfg env text s) as [[[y|e] s1] log1]; exact H.
  - exact Hs.
  - apply disconnect_socket_has_tasks.
  - apply connect_socket_has_tasks.
Qed.

Lemma run_socket_has_tasks cfg b64decode (turns : list Turn) (s : State) :
  socket_has_tasks s ->
  socket_has_tasks (state_of (run cfg b64decode turns s)).
Proof.
  revert s. induction turns as [|t rest IH]; intros s Hs; [exact Hs|].
  simpl run.
  pose proof (step_socket_has_tasks cfg b64decode t s Hs) as Hstep.
  unfold bind.
  destruct (step cfg b64decode t s) as [[[[]|e] s1] log1]; [|exact Hstep].
  pose proof (IH s1 Hstep) as H.
  destruct (run cfg b64decode rest s1) as [[r2 s2] log2]. exact H.
Qed.

(** X2: in every state the service reaches from [__init__], whatever the
    pipeline, the server and the network do and in whatever order, a
    socket is never held without both background task handles. The
    converse does not hold: a failed [connect] on a connected service
    drops the socket and keeps the task handles. *)
Theorem socket_is_never_held_without_tasks cfg b64decode
    (turns : list Turn) :
  socket_has_tasks (state_of (run cfg b64decode turns init))
  /\ (let s := state_of (run cfg b64decode [Connect true; Connect false] init) in
      websocket s = None
      /\ receive_task s = Some ReceiveTaskHandler
      /\ context_appending_task s = Some ContextAppendingTaskHandler).
Proof.
  split.
  - apply run_socket_has_tasks. intros H. discriminate.
  - repeat split.
Qed.
